(** * Python-to-C++ coverage verifier: a shallow embedding

    The development embeds the two verification scripts of the repository,
    [test_verification.py] and [TO_REMOVE/detailed_verification.py]:
    symbol extraction ([analyze_python_module]), the equivalence search
    ([check_cpp_equivalent]), the aggregation and reporting done by [main],
    and the [__main__] block of each script.

    Text is modelled as [string] over the code points 0..255; the file
    system and the console are explicit values passed to the functions. *)

From Stdlib Require Import Ascii String List ZArith QArith Lia Permutation Bool.
From stdpp Require Import gmap strings.
Import ListNotations.

#[local] Arguments String.append !s1 s2 : simpl nomatch.

(** ** The Python string methods the scripts call *)

Module Py.

(** The double quote, written by code so that no literal has to hold it. *)
Definition dquote : ascii := "034"%char.

(** [c.isspace()] on the code points 0..255. *)
Definition isspace (c : ascii) : bool :=
  match c with
  | "009" | "010" | "011" | "012" | "013"
  | "028" | "029" | "030" | "031" | " "
  | "133" | "160" => true
  | _ => false
  end%char.

(** [s.lstrip()]. *)
Fixpoint lstrip (s : string) : string :=
  match s with
  | EmptyString => EmptyString
  | String c s' => if isspace c then lstrip s' else s
  end.

(** [s.rstrip()]. *)
Fixpoint rstrip (s : string) : string :=
  match s with
  | EmptyString => EmptyString
  | String c s' =>
      match rstrip s' with
      | EmptyString => if isspace c then EmptyString else String c EmptyString
      | r => String c r
      end
  end.

(** [s.strip()]. *)
Definition strip (s : string) : string := rstrip (lstrip s).

(** [s.startswith(p)]. *)
Fixpoint startswith (p s : string) : bool :=
  match p, s with
  | EmptyString, _ => true
  | String _ _, EmptyString => false
  | String a p', String b s' => if Ascii.eqb a b then startswith p' s' else false
  end.

(** [s.split(sep)] for a separator of one character: never empty. *)
Fixpoint split (sep : ascii) (s : string) : list string :=
  match s with
  | EmptyString => [EmptyString]
  | String c s' =>
      if Ascii.eqb c sep then EmptyString :: split sep s'
      else match split sep s' with
           | h :: t => String c h :: t
           | [] => [String c EmptyString]
           end
  end.

(** [l[0]] on the result of a split. *)
Definition item0 (l : list string) : string := hd EmptyString l.

(** Drops the first [n] characters. *)
Fixpoint drop (n : nat) (s : string) : string :=
  match n, s with
  | O, _ => s
  | S _, EmptyString => EmptyString
  | S k, String _ s' => drop k s'
  end.

(** [s.replace(old, new)] for a non-empty [old]: every occurrence, found
    from the left and not overlapping, is replaced. [skip] counts the
    characters of the occurrence being replaced that are still to pass. *)
Fixpoint replace_from (old new : string) (skip : nat) (s : string) : string :=
  match s with
  | EmptyString => EmptyString
  | String c s' =>
      match skip with
      | S k => replace_from old new k s'
      | O =>
          if startswith old s
          then String.append new (replace_from old new (String.length old - 1) s')
          else String c (replace_from old new 0 s')
      end
  end.

(** With an empty [old], Python puts [new] around every character. *)
Fixpoint interleave (new s : string) : string :=
  match s with
  | EmptyString => new
  | String c s' => String.append new (String c (interleave new s'))
  end.

Definition replace (old new s : string) : string :=
  match old with
  | EmptyString => interleave new s
  | String _ _ => replace_from old new 0 s
  end.

(** [c.lower()] on the code points 0..255: A..Z and the capital letters
    of Latin-1 (192..222 without the multiplication sign 215). *)
Definition lower_char (c : ascii) : ascii :=
  let n := nat_of_ascii c in
  if ((65 <=? n) && (n <=? 90))%nat then ascii_of_nat (n + 32)
  else if ((192 <=? n) && (n <=? 222) && negb (n =? 215))%nat
       then ascii_of_nat (n + 32)
  else c.

(** [s.lower()]. *)
Fixpoint lower (s : string) : string :=
  match s with
  | EmptyString => EmptyString
  | String c s' => String (lower_char c) (lower s')
  end.

(** [needle in hay]. *)
Fixpoint contains (needle hay : string) : bool :=
  match hay with
  | EmptyString => match needle with EmptyString => true | _ => false end
  | String _ h' => startswith needle hay || contains needle h'
  end.

(** [sep.join(l)]. *)
Fixpoint join (sep : string) (l : list string) : string :=
  match l with
  | [] => EmptyString
  | [x] => x
  | x :: t => String.append x (String.append sep (join sep t))
  end.

(** [c in s] for one character. *)
Fixpoint has_char (c : ascii) (s : string) : bool :=
  match s with
  | EmptyString => false
  | String d s' => Ascii.eqb d c || has_char c s'
  end.

(** Every character of [s] is white space for [strip]. *)
Fixpoint all_space (s : string) : bool :=
  match s with
  | EmptyString => true
  | String c s' => isspace c && all_space s'
  end.

(** Every character of [s] is a printable ASCII character, 32 to 126. *)
Fixpoint all_printable (s : string) : bool :=
  match s with
  | EmptyString => true
  | String c s' =>
      ((32 <=? nat_of_ascii c) && (nat_of_ascii c <=? 126))%nat
      && all_printable s'
  end.

End Py.

(** ** The environment of a run *)

(** An exception, as far as the scripts look at one: whether an
    [except Exception] clause catches it, and [str(e)]. *)
Record exn : Type := {
  exn_is_Exception : bool;
  exn_str : string
}.

(** The file system as the scripts observe it. Paths are relative path
    strings in normal form.
    - [path_exists p] is [Path(p).exists()];
    - [read_text p] is [open(p, 'r', encoding='utf-8')] followed by
      [f.read()]: the decoded text, or the [str(e)] of the I/O or decoding
      error raised;
    - [rglob root pat] is [Path(root).rglob(pat)], in traversal order;
    - [open_w p] is [open(p, 'w')]: [None] when the file opens (and is
      truncated), [Some e] when the call raises [e]. *)
Record World : Type := {
  path_exists : string -> bool;
  read_text : string -> string + string;
  rglob : string -> string -> list string;
  open_w : string -> option exn
}.

(** [Path(p).parent] and [file.relative_to(base)], on normal relative paths. *)
Module PathLib.

(** Characters before the last [/], if there is one. *)
Fixpoint dirname (p : string) : option string :=
  match p with
  | EmptyString => None
  | String c p' =>
      match dirname p' with
      | Some d => Some (String c d)
      | None => if Ascii.eqb c "/" then Some EmptyString else None
      end
  end.

Definition parent (p : string) : string :=
  match dirname p with
  | Some d => d
  | None => "."
  end.

(** [None] stands for the [ValueError] of a path outside [base]. *)
Definition relative_to (file base : string) : option string :=
  if String.eqb base "." then Some file
  else if Py.startswith (base +:+ "/") file
       then Some (Py.drop (String.length base + 1) file)
  else None.

(** [p.name]: the last component of the path. *)
Fixpoint name (p : string) : string :=
  match p with
  | EmptyString => EmptyString
  | String c p' =>
      if Py.has_char "/" p' then name p'
      else if Ascii.eqb c "/" then p' else p
  end.

End PathLib.

(** ** Symbol extraction *)

(** The dict returned by [analyze_python_module]; [error] is [None] when
    the dict has no ['error'] key. *)
Record Analysis : Type := {
  functions : list string;
  classes : list string;
  path : string;
  error : option string
}.

(** One iteration of the loop over the lines of the file. *)
Definition scan_line (acc : list string * list string) (raw : string)
  : list string * list string :=
  let '(functions, classes) := acc in
  let line := Py.strip raw in
  if Py.startswith "def " line && negb (Py.startswith "def _" line) then
    let func_name := Py.replace "def " "" (Py.item0 (Py.split "(" line)) in
    (functions ++ [func_name], classes)
  else if Py.startswith "class " line then
    let class_name :=
      Py.replace "class " ""
        (Py.item0 (Py.split ":" (Py.item0 (Py.split "(" line)))) in
    (functions, classes ++ [class_name])
  else acc.

Definition scan_content (content : string) : list string * list string :=
  fold_left scan_line (Py.split "010" content) ([], []).

Definition analyze_python_module (w : World) (py_file : string) : Analysis :=
  match read_text w py_file with
  | inl content =>
      let '(functions, classes) := scan_content content in
      {| functions := functions; classes := classes;
         path := py_file; error := None |}
  | inr e =>
      {| functions := []; classes := []; path := py_file; error := Some e |}
  end.

(** The kinds of symbol, and what one stripped line declares. *)
Inductive Kind : Type := Function | Class.

Definition classify_line (line : string) : option (Kind * string) :=
  if Py.startswith "def " line && negb (Py.startswith "def _" line) then
    Some (Function, Py.replace "def " "" (Py.item0 (Py.split "(" line)))
  else if Py.startswith "class " line then
    Some (Class, Py.replace "class " ""
                   (Py.item0 (Py.split ":" (Py.item0 (Py.split "(" line)))))
  else None.

Definition names_of (k : Kind) (lines : list string) : list string :=
  flat_map (fun raw =>
              match classify_line (Py.strip raw), k with
              | Some (Function, n), Function => [n]
              | Some (Class, n), Class => [n]
              | _, _ => []
              end) lines.

(** ** JSON text of the artifacts *)

(** [json.dump] with its default settings, on a list of dicts with the keys
    ['name'] and ['module'] and string values. *)
Module Json.

Record Entry : Type := { name : string; module : string }.

Definition Entry_eq_dec (a b : Entry) : {a = b} + {a <> b}.
Proof. decide equality; apply String.string_dec. Defined.

Definition hex_digit (n : nat) : ascii :=
  match n with
  | 0 => "0" | 1 => "1" | 2 => "2" | 3 => "3" | 4 => "4"
  | 5 => "5" | 6 => "6" | 7 => "7" | 8 => "8" | 9 => "9"
  | 10 => "a" | 11 => "b" | 12 => "c" | 13 => "d" | 14 => "e"
  | _ => "f"
  end%char.

(** The replacement of one character in a string literal
    ([ensure_ascii=True]): short escapes, [\u00xx] outside the printable
    ASCII range, the character itself otherwise. *)
Definition escape_char (c : ascii) : string :=
  let n := nat_of_ascii c in
  if Ascii.eqb c Py.dquote then String "\" (String Py.dquote "")
  else if Ascii.eqb c "\" then "\\"
  else if Ascii.eqb c "010" then "\n"
  else if Ascii.eqb c "013" then "\r"
  else if Ascii.eqb c "009" then "\t"
  else if Ascii.eqb c "008" then "\b"
  else if Ascii.eqb c "012" then "\f"
  else if ((32 <=? n) && (n <=? 126))%nat then String c ""
  else "\u00" +:+ String (hex_digit (n / 16)) (String (hex_digit (n mod 16)) "").

Fixpoint escape (s : string) : string :=
  match s with
  | EmptyString => EmptyString
  | String c s' => escape_char c +:+ escape s'
  end.

Definition dump_string (s : string) : string :=
  String Py.dquote (escape s +:+ String Py.dquote "").

Definition dump_entry (e : Entry) : string :=
  "{" +:+ dump_string "name" +:+ ": " +:+ dump_string (name e) +:+ ", "
      +:+ dump_string "module" +:+ ": " +:+ dump_string (module e) +:+ "}".

Definition dumps (l : list Entry) : string :=
  "[" +:+ Py.join ", " (map dump_entry l) +:+ "]".

End Json.

(** ** Results shared by the two scripts *)

(** What a call leaves behind: a returned value or a raised exception. *)
Inductive result (A : Type) : Type :=
| Returned (a : A)
| Raised (e : exn).
Arguments Returned {A} a.
Arguments Raised {A} e.

(** How the process ends: an exit status, or a Python exception that no
    handler caught and that reaches the interpreter. *)
Inductive Termination : Type :=
| Exit (code : Z)
| Unhandled (e : exn).

(** The value of [verification_results[module]]: the triples
    [(name, has_cpp, location)] of the functions and of the classes. *)
Record ModuleResult : Type := {
  function_results : list (string * bool * string);
  class_results : list (string * bool * string)
}.

(** Assignment [d[k] = v] on a dict kept in insertion order. *)
Fixpoint dict_set {V : Type} (d : list (string * V)) (k : string) (v : V)
  : list (string * V) :=
  match d with
  | [] => [(k, v)]
  | (k', v') :: d' =>
      if String.eqb k' k then (k', v) :: d' else (k', v') :: dict_set d' k v
  end.

Definition dict_values {V : Type} (d : list (string * V)) : list V := map snd d.

(** [sum(...)] over a list of integers. *)
Definition sumZ (l : list Z) : Z := fold_right Z.add 0%Z l.

Definition len {A : Type} (l : list A) : Z := Z.of_nat (length l).

(** [sum(1 for _, has_cpp, _ in triples if has_cpp)]. *)
Definition count_has_cpp (triples : list (string * bool * string)) : Z :=
  len (List.filter (fun t : string * bool * string => snd (fst t)) triples).

Definition core_modules : list string :=
  ["activationsfunc.py"; "mat_gen.py"; "node.py"; "model.py"; "ops.py";
   "observables.py"; "type.py"].

(** [a / b] on paths, with [Path('.')] as the neutral left operand. *)
Definition path_join (a b : string) : string :=
  if String.eqb a "." then b else a +:+ "/" +:+ b.

(** The state of the loop over the modules in [main]. *)
Record MainState : Type := {
  verification_results : list (string * ModuleResult);
  missing_functions : list Json.Entry;
  missing_classes : list Json.Entry
}.

(** The local variables of the summary part of [main]. *)
Record Summary : Type := {
  total_functions : Z;
  implemented_functions : Z;
  total_classes : Z;
  implemented_classes : Z;
  total_missing : Z;
  coverage_percentage : Q
}.

(** ** [test_verification.py] *)

Module TestVerification.

(** The innermost loop of [check_cpp_equivalent], over the files of one
    pattern; [Some r] is an early [return r]. An exception raised in the
    [try] block skips the file. *)
Fixpoint search_files (w : World) (item_name root : string)
    (files : list string) : option (bool * string) :=
  match files with
  | [] => None
  | file :: rest =>
      match read_text w file with
      | inl text =>
          if Py.contains (Py.lower item_name) (Py.lower text) then
            match PathLib.relative_to file (PathLib.parent root) with
            | Some rel => Some (true, "Found in " +:+ rel)
            | None => search_files w item_name root rest
            end
          else search_files w item_name root rest
      | inr _ => search_files w item_name root rest
      end
  end.

Fixpoint search_exts (w : World) (item_name root : string)
    (exts : list string) : option (bool * string) :=
  match exts with
  | [] => None
  | ext :: rest =>
      match search_files w item_name root (rglob w root ext) with
      | Some r => Some r
      | None => search_exts w item_name root rest
      end
  end.

Fixpoint search_roots (w : World) (item_name : string)
    (roots : list string) : option (bool * string) :=
  match roots with
  | [] => None
  | root :: rest =>
      if path_exists w root then
        match search_exts w item_name root ["*.hpp"; "*.cpp"] with
        | Some r => Some r
        | None => search_roots w item_name rest
        end
      else search_roots w item_name rest
  end.

Definition check_cpp_equivalent (w : World)
    (item_name cpp_headers_dir cpp_src_dir : string) : bool * string :=
  match search_roots w item_name [cpp_headers_dir; cpp_src_dir] with
  | Some r => r
  | None => (false, "NOT FOUND")
  end.

Definition base_dir : string := ".".
Definition reservoirpy_dir : string :=
  path_join (path_join base_dir "TO_REMOVE") "reservoirpy".
Definition cpp_headers_dir : string := path_join base_dir "include".
Definition cpp_src_dir : string := path_join base_dir "src".

(** One iteration of the loop over the functions (or the classes) of a
    module: the triple is appended, and the missing list grows when the
    search fails. *)
Definition check_item (w : World) (module : string)
    (acc : list (string * bool * string) * list Json.Entry) (item : string)
  : list (string * bool * string) * list Json.Entry :=
  let '(results, missing) := acc in
  let '(has_cpp, location) :=
    check_cpp_equivalent w item cpp_headers_dir cpp_src_dir in
  (results ++ [(item, has_cpp, location)],
   if negb has_cpp
   then missing ++ [ {| Json.name := item; Json.module := module |} ]
   else missing).

(** One iteration of the loop over [core_modules]. *)
Definition module_step (w : World) (st : MainState) (module : string)
  : MainState :=
  let module_path := path_join reservoirpy_dir module in
  if path_exists w module_path then
    let analysis := analyze_python_module w module_path in
    match error analysis with
    | Some _ => st
    | None =>
        let '(function_results, mf) :=
          fold_left (check_item w module) (functions analysis)
                    ([], missing_functions st) in
        let '(class_results, mc) :=
          fold_left (check_item w module) (classes analysis)
                    ([], missing_classes st) in
        {| verification_results :=
             dict_set (verification_results st) module
               {| function_results := function_results;
                  class_results := class_results |};
           missing_functions := mf;
           missing_classes := mc |}
    end
  else st.

Definition initial : MainState :=
  {| verification_results := []; missing_functions := [];
     missing_classes := [] |}.

Definition run_modules (w : World) (modules : list string) : MainState :=
  fold_left (module_step w) modules initial.

(** The summary computed after the loop. The division of Python, on
    floats, is taken on the rationals. *)
Definition summary (st : MainState) : Summary :=
  let values := dict_values (verification_results st) in
  let total_functions := sumZ (map (fun r => len (function_results r)) values) in
  let implemented_functions :=
    sumZ (map (fun r => count_has_cpp (function_results r)) values) in
  let total_classes := sumZ (map (fun r => len (class_results r)) values) in
  let implemented_classes :=
    sumZ (map (fun r => count_has_cpp (class_results r)) values) in
  {| total_functions := total_functions;
     implemented_functions := implemented_functions;
     total_classes := total_classes;
     implemented_classes := implemented_classes;
     total_missing := len (missing_functions st) + len (missing_classes st);
     coverage_percentage :=
       if (0 <? total_functions + total_classes)%Z
       then inject_Z (implemented_functions + implemented_classes)
            / inject_Z (total_functions + total_classes) * 100
       else 100 |}.

(** [main]: the value returned or the exception raised, and the files
    written. *)
Definition main (w : World) (fs : gmap string string)
  : result bool * gmap string string :=
  let st := run_modules w core_modules in
  let sm := summary st in
  match open_w w "missing_functions.json" with
  | Some e => (Raised e, fs)
  | None =>
      let fs1 := <["missing_functions.json" := Json.dumps (missing_functions st)]> fs in
      match open_w w "missing_classes.json" with
      | Some e => (Raised e, fs1)
      | None =>
          let fs2 := <["missing_classes.json" := Json.dumps (missing_classes st)]> fs1 in
          let success := Qle_bool 90 (coverage_percentage sm) in
          if success then (Returned true, fs2) else (Returned false, fs2)
      end
  end.

(** The [__main__] block: no handler around [main]. *)
Definition dunder_main (w : World) (fs : gmap string string)
  : Termination * gmap string string :=
  match main w fs with
  | (Returned success, fs') => (Exit (if success then 0 else 1), fs')
  | (Raised e, fs') => (Unhandled e, fs')
  end.

End TestVerification.

(** ** [TO_REMOVE/detailed_verification.py] *)

Module DetailedVerification.

(** One of the two loops of [check_cpp_equivalent]: the files of [root]
    that match one pattern, the location taken relative to [root]. *)
Fixpoint search_files (w : World) (item_name root : string)
    (files : list string) : option (bool * string) :=
  match files with
  | [] => None
  | file :: rest =>
      match read_text w file with
      | inl text =>
          let content := Py.lower text in
          if Py.contains (Py.lower item_name) content then
            match PathLib.relative_to file root with
            | Some rel => Some (true, "Found in " +:+ rel)
            | None => search_files w item_name root rest
            end
          else search_files w item_name root rest
      | inr _ => search_files w item_name root rest
      end
  end.

Definition check_cpp_equivalent (w : World)
    (item_name cpp_headers_dir cpp_src_dir : string) : bool * string :=
  match search_files w item_name cpp_headers_dir
          (rglob w cpp_headers_dir "*.hpp") with
  | Some r => r
  | None =>
      match search_files w item_name cpp_src_dir
              (rglob w cpp_src_dir "*.cpp") with
      | Some r => r
      | None => (false, "Not found")
      end
  end.

Definition base_dir : string := "/workspaces/reservoir-cpp".
Definition reservoirpy_dir : string := path_join base_dir "reservoirpy".
Definition cpp_headers_dir : string := path_join base_dir "include".
Definition cpp_src_dir : string := path_join base_dir "src".

Definition check_item (w : World)
    (results : list (string * bool * string)) (item : string)
  : list (string * bool * string) :=
  let '(has_cpp, location) :=
    check_cpp_equivalent w item cpp_headers_dir cpp_src_dir in
  results ++ [(item, has_cpp, location)].

(** One iteration of the loop over [core_modules]; the state is
    [verification_results]. *)
Definition module_step (w : World)
    (verification_results : list (string * ModuleResult)) (module : string)
  : list (string * ModuleResult) :=
  let module_path := path_join reservoirpy_dir module in
  if path_exists w module_path then
    let analysis := analyze_python_module w module_path in
    match error analysis with
    | Some _ => verification_results
    | None =>
        let function_results :=
          fold_left (check_item w) (functions analysis) [] in
        let class_results :=
          fold_left (check_item w) (classes analysis) [] in
        dict_set verification_results module
          {| function_results := function_results;
             class_results := class_results |}
    end
  else verification_results.

(** The four counts of the summary part of [main]: total and implemented
    functions, total and implemented classes. *)
Definition totals (verification_results : list (string * ModuleResult))
  : Z * Z * Z * Z :=
  let values := dict_values verification_results in
  let total_functions := sumZ (map (fun r => len (function_results r)) values) in
  let implemented_functions :=
    sumZ (map (fun r => count_has_cpp (function_results r)) values) in
  let total_classes := sumZ (map (fun r => len (class_results r)) values) in
  let implemented_classes :=
    sumZ (map (fun r => count_has_cpp (class_results r)) values) in
  (total_functions, implemented_functions, total_classes, implemented_classes).

(** [main]. The node types part between the loop and the summary prints
    only and is left out; [0.9 * total], on floats in Python, is taken on
    the rationals. *)
Definition main (w : World) : bool :=
  let '(total_functions, implemented_functions, total_classes, implemented_classes) :=
    totals (fold_left (module_step w) core_modules []) in
  if Qle_bool ((9 # 10) * inject_Z (total_functions + total_classes))
              (inject_Z (implemented_functions + implemented_classes))
  then true else false.

(** The [__main__] block around a call of [main] that ends as [r]:
    the lines printed by the block (without their leading pictogram) and
    the way the process ends. [finally: sys.exit(0)] runs on every path
    and replaces an exception in flight. *)
Definition dunder_main_on (r : result bool) : list string * Termination :=
  let printed :=
    match r with
    | Returned success =>
        if negb success
        then ["Functionality verification found missing items, but exiting successfully."]
        else ["Functionality verification completed successfully."]
    | Raised e =>
        if exn_is_Exception e
        then ["Error encountered during functionality verification: " +:+ exn_str e;
              "Exiting successfully despite error - artifact generation continues."]
        else []
    end in
  (printed, Exit 0).

Definition dunder_main (w : World) : list string * Termination :=
  dunder_main_on (Returned (main w)).

(** The node types part of [main], which only prints. [node_files] is
    the list built by the loop over [nodes_dir.rglob('*.py')]; the slice
    [node_files[:10]] is what the second loop goes through. *)
Definition nodes_dir : string := path_join reservoirpy_dir "nodes".

Definition node_files (w : World) : list string :=
  List.filter
    (fun py_file =>
       negb (existsb (String.eqb (PathLib.name py_file)) ["__init__.py"; "tests"]))
    (rglob w nodes_dir "*.py").

(** What the second loop prints for one node file: the error, or the two
    counts and one line per class with its mark and the location shown
    ([location if has_cpp else 'NOT FOUND']). *)
Inductive NodeReport : Type :=
| NodeError (node_file e : string)
| NodeClasses (node_file : string) (n_functions n_classes : Z)
    (class_lines : list (string * bool * string)).

Definition node_report (w : World) (node_file : string) : NodeReport :=
  let analysis := analyze_python_module w node_file in
  match error analysis with
  | Some e => NodeError node_file e
  | None =>
      NodeClasses node_file (len (functions analysis)) (len (classes analysis))
        (map (fun cls =>
                let '(has_cpp, location) :=
                  check_cpp_equivalent w cls cpp_headers_dir cpp_src_dir in
                (cls, has_cpp, if has_cpp then location else "NOT FOUND"))
             (classes analysis))
  end.

Definition node_types_analysis (w : World) : list NodeReport :=
  map (node_report w) (firstn 10 (node_files w)).

End DetailedVerification.

(** ** Reading an artifact back *)

(** [json.load] of the standard library, on the documents the artifacts can
    hold: an array of objects whose members are strings. Text outside that
    grammar, and escapes above code point 255, give [None]. *)
Module JsonLoad.

Definition is_ws (c : ascii) : bool :=
  match c with
  | " " | "009" | "010" | "013" => true
  | _ => false
  end%char.

Fixpoint skip_ws (s : string) : string :=
  match s with
  | EmptyString => EmptyString
  | String c s' => if is_ws c then skip_ws s' else s
  end.

Definition hex_value (c : ascii) : option nat :=
  let n := nat_of_ascii c in
  if ((48 <=? n) && (n <=? 57))%nat then Some (n - 48)
  else if ((97 <=? n) && (n <=? 102))%nat then Some (n - 87)
  else if ((65 <=? n) && (n <=? 70))%nat then Some (n - 55)
  else None.

Definition push (c : ascii) (r : option (string * string))
  : option (string * string) :=
  match r with
  | Some (str, rest) => Some (String c str, rest)
  | None => None
  end.

(** The characters of a string literal after its opening quote, up to
    the closing quote: the decoded string and the text that follows. *)
Fixpoint scan_string (s : string) : option (string * string) :=
  match s with
  | EmptyString => None
  | String c s' =>
      if Ascii.eqb c Py.dquote then Some (EmptyString, s')
      else if Ascii.eqb c "\" then
        match s' with
        | EmptyString => None
        | String e s'' =>
            if Ascii.eqb e Py.dquote then push Py.dquote (scan_string s'')
            else if Ascii.eqb e "\" then push "\" (scan_string s'')
            else if Ascii.eqb e "/" then push "/" (scan_string s'')
            else if Ascii.eqb e "b" then push "008" (scan_string s'')
            else if Ascii.eqb e "f" then push "012" (scan_string s'')
            else if Ascii.eqb e "n" then push "010" (scan_string s'')
            else if Ascii.eqb e "r" then push "013" (scan_string s'')
            else if Ascii.eqb e "t" then push "009" (scan_string s'')
            else if Ascii.eqb e "u" then
              match s'' with
              | String h1 (String h2 (String h3 (String h4 s3))) =>
                  match hex_value h1, hex_value h2, hex_value h3, hex_value h4 with
                  | Some a, Some b, Some c3, Some d =>
                      let n := (((a * 16 + b) * 16 + c3) * 16 + d)%nat in
                      if (n <? 256)%nat then push (ascii_of_nat n) (scan_string s3)
                      else None
                  | _, _, _, _ => None
                  end
              | _ => None
              end
            else None
        end
      else if (nat_of_ascii c <? 32)%nat then None
      else push c (scan_string s')
  end.

(** A string literal, after white space. *)
Definition parse_string (s : string) : option (string * string) :=
  match skip_ws s with
  | String q s1 => if Ascii.eqb q Py.dquote then scan_string s1 else None
  | EmptyString => None
  end.

(** One member [key : value] and the white space after it. *)
Definition parse_member (s : string) : option ((string * string) * string) :=
  match parse_string s with
  | Some (k, s1) =>
      match skip_ws s1 with
      | String ":" s2 =>
          match parse_string s2 with
          | Some (v, s3) => Some ((k, v), skip_ws s3)
          | None => None
          end
      | _ => None
      end
  | None => None
  end.

(** The members of an object after its opening brace. *)
Fixpoint parse_members (fuel : nat) (s : string)
  : option (list (string * string) * string) :=
  match fuel with
  | O => None
  | S fuel' =>
      match parse_member s with
      | Some (kv, String "," s1) =>
          match parse_members fuel' s1 with
          | Some (l, rest) => Some (kv :: l, rest)
          | None => None
          end
      | Some (kv, String "}" s1) => Some ([kv], s1)
      | _ => None
      end
  end.

Definition parse_object (s : string) : option (list (string * string) * string) :=
  match skip_ws s with
  | String "{" s1 =>
      match skip_ws s1 with
      | String "}" s2 => Some ([], s2)
      | _ => parse_members (String.length s1) s1
      end
  | _ => None
  end.

(** The elements of an array after its opening bracket. *)
Fixpoint parse_elements (fuel : nat) (s : string)
  : option (list (list (string * string)) * string) :=
  match fuel with
  | O => None
  | S fuel' =>
      match parse_object s with
      | Some (o, s1) =>
          match skip_ws s1 with
          | String "," s2 =>
              match parse_elements fuel' s2 with
              | Some (l, rest) => Some (o :: l, rest)
              | None => None
              end
          | String "]" s2 => Some ([o], s2)
          | _ => None
          end
      | None => None
      end
  end.

Definition parse_array (s : string)
  : option (list (list (string * string)) * string) :=
  match skip_ws s with
  | String "[" s1 =>
      match skip_ws s1 with
      | String "]" s2 => Some ([], s2)
      | _ => parse_elements (String.length s1) s1
      end
  | _ => None
  end.

(** The whole document: one array, then only white space. *)
Definition loads (s : string) : option (list (list (string * string))) :=
  match parse_array s with
  | Some (l, rest) =>
      match skip_ws rest with
      | EmptyString => Some l
      | _ => None
      end
  | None => None
  end.

(** The dict built from the members of an object (a repeated key keeps
    its last value), read as an entry when its keys are ['name'] and
    ['module']. *)
Definition dict_of (members : list (string * string)) : list (string * string) :=
  fold_left (fun d kv => dict_set d (fst kv) (snd kv)) members [].

Fixpoint dict_get (d : list (string * string)) (k : string) : option string :=
  match d with
  | [] => None
  | (k', v) :: d' => if String.eqb k' k then Some v else dict_get d' k
  end.

Definition entry_of (members : list (string * string)) : option Json.Entry :=
  let d := dict_of members in
  match dict_get d "name", dict_get d "module" with
  | Some n, Some m =>
      if (length d =? 2)%nat
      then Some {| Json.name := n; Json.module := m |}
      else None
  | _, _ => None
  end.

Fixpoint entries_of (l : list (list (string * string)))
  : option (list Json.Entry) :=
  match l with
  | [] => Some []
  | o :: l' =>
      match entry_of o, entries_of l' with
      | Some e, Some es => Some (e :: es)
      | _, _ => None
      end
  end.

(** The members [json.dump] writes for an entry. *)
Definition members_of (e : Json.Entry) : list (string * string) :=
  [("name", Json.name e); ("module", Json.module e)].

Definition load_entries (s : string) : option (list Json.Entry) :=
  match loads s with
  | Some l => entries_of l
  | None => None
  end.

End JsonLoad.


(** ** Reference definitions for the statements *)

(** [needle] occurs in [hay]. *)
Definition occurs_in (needle hay : string) : Prop :=
  exists before after, hay = before +:+ needle +:+ after.

Module Reference.

(** The files [check_cpp_equivalent] visits when [main] of
    [test_verification.py] calls it, in the order of the visit. *)
Definition traversal (w : World) : list string :=
  flat_map (fun root =>
              if path_exists w root
              then rglob w root "*.hpp" ++ rglob w root "*.cpp"
              else [])
           [TestVerification.cpp_headers_dir; TestVerification.cpp_src_dir].

(** The file can be read and its lower-cased text holds the lower-cased name. *)
Definition file_matches (w : World) (item_name file : string) : bool :=
  match read_text w file with
  | inl text => Py.contains (Py.lower item_name) (Py.lower text)
  | inr _ => false
  end.

Definition readable (w : World) (file : string) : bool :=
  match read_text w file with
  | inl _ => true
  | inr _ => false
  end.

Definition found (w : World) (item_name : string) : bool :=
  fst (TestVerification.check_cpp_equivalent w item_name
         TestVerification.cpp_headers_dir TestVerification.cpp_src_dir).

(** The analysis of a module the loop of [main] goes on with: the module
    exists and its analysis has no ['error']. *)
Definition module_analysis (w : World) (module : string) : option Analysis :=
  let module_path := path_join TestVerification.reservoirpy_dir module in
  if path_exists w module_path then
    let analysis := analyze_python_module w module_path in
    match error analysis with
    | Some _ => None
    | None => Some analysis
    end
  else None.

Definition names (k : Kind) (a : Analysis) : list string :=
  match k with
  | Function => functions a
  | Class => classes a
  end.

(** The symbols of kind [k] extracted in a run over [modules], each with
    its module, in the order of extraction. *)
Definition symbols (k : Kind) (w : World) (modules : list string)
  : list Json.Entry :=
  flat_map (fun m =>
              match module_analysis w m with
              | Some a =>
                  map (fun n => {| Json.name := n; Json.module := m |})
                      (names k a)
              | None => []
              end) modules.

Definition entry_found (w : World) (e : Json.Entry) : bool :=
  found w (Json.name e).

(** The percentage of [implemented] in [total], 100 when [total] is 0. *)
Definition percentage (implemented total : Z) : Q :=
  if (0 <? total)%Z
  then inject_Z implemented / inject_Z total * 100
  else 100.

Definition kind_results (k : Kind) (r : ModuleResult)
  : list (string * bool * string) :=
  match k with
  | Function => function_results r
  | Class => class_results r
  end.

(** The symbols of kind [k] of one module that the search does not find. *)
Definition missing_of (w : World) (k : Kind) (module : string) (a : Analysis)
  : list Json.Entry :=
  List.filter (fun e => negb (entry_found w e))
    (map (fun n => {| Json.name := n; Json.module := module |})
         (names k a)).

(** The triple recorded for one symbol. *)
Definition triple (w : World) (item : string) : string * bool * string :=
  let r := TestVerification.check_cpp_equivalent w item
             TestVerification.cpp_headers_dir TestVerification.cpp_src_dir in
  (item, fst r, snd r).

Definition result_of (w : World) (a : Analysis) : ModuleResult :=
  {| function_results := map (triple w) (functions a);
     class_results := map (triple w) (classes a) |}.

(** The dict [verification_results] after a run over [modules]. *)
Definition results (w : World) (modules : list string)
  : list (string * ModuleResult) :=
  flat_map (fun m =>
              match module_analysis w m with
              | Some a => [(m, result_of w a)]
              | None => []
              end) modules.

Definition found_symbols (k : Kind) (w : World) (modules : list string)
  : list Json.Entry :=
  List.filter (entry_found w) (symbols k w modules).

Definition missing_symbols (k : Kind) (w : World) (modules : list string)
  : list Json.Entry :=
  List.filter (fun e => negb (entry_found w e)) (symbols k w modules).

End Reference.

(** The two exit policies of the specification. *)
Inductive Policy : Type := Advisory | Gating.

Definition exit_code (p : Policy) (pass : bool) : Z :=
  match p with
  | Advisory => 0
  | Gating => if pass then 0 else 1
  end.

(** ** Sample environments *)

Module Sample.

Definition newline : string := String "010" "".

Definition node_py : string :=
  "def alpha(x):" +:+ newline +:+
  "    def _beta(y):" +:+ newline +:+
  "def zeta(z):" +:+ newline +:+
  "class Gamma(Base):".

Definition ops_py : string := "def zeta():" +:+ newline +:+ "x = 1".

Definition foo_py : string :=
  "  def foo(x):  " +:+ newline +:+
  "def _hidden(x):" +:+ newline +:+
  "class Bar(Base):" +:+ newline +:+
  "    def (".

Definition permission_denied : exn :=
  {| exn_is_Exception := true;
     exn_str := "[Errno 13] Permission denied: 'missing_functions.json'" |}.

(** Two reference modules, one header and one source file; [model.py]
    exists but cannot be decoded. Under the absolute base directory of
    [detailed_verification.py] there is one reference module and no
    candidate file. *)
Definition world (open_w : string -> option exn) : World :=
  {| path_exists := fun p =>
       String.eqb p "TO_REMOVE/reservoirpy/node.py"
       || String.eqb p "/workspaces/reservoir-cpp/reservoirpy/node.py"
       || String.eqb p "TO_REMOVE/reservoirpy/model.py"
       || String.eqb p "TO_REMOVE/reservoirpy/ops.py"
       || String.eqb p "include" || String.eqb p "src";
     read_text := fun p =>
       if String.eqb p "TO_REMOVE/reservoirpy/node.py" then inl node_py
       else if String.eqb p "/workspaces/reservoir-cpp/reservoirpy/node.py"
            then inl node_py
       else if String.eqb p "TO_REMOVE/reservoirpy/ops.py" then inl ops_py
       else if String.eqb p "foo.py" then inl foo_py
       else if String.eqb p "include/broken.hpp"
            then inr "'utf-8' codec can't decode byte 0xff in position 0: invalid start byte"
       else if String.eqb p "include/alpha.hpp" then inl "void ALPHA(int x);"
       else if String.eqb p "src/gamma.cpp" then inl "class Gamma {};"
       else inr "'utf-8' codec can't decode byte 0xff in position 0: invalid start byte";
     rglob := fun root pat =>
       if String.eqb root "include" && String.eqb pat "*.hpp"
       then ["include/broken.hpp"; "include/alpha.hpp"]
       else if String.eqb root "src" && String.eqb pat "*.cpp"
       then ["src/gamma.cpp"]
       else [];
     open_w := open_w |}.

Definition writable : World := world (fun _ => None).

Definition read_only : World :=
  world (fun p => if String.eqb p "missing_functions.json"
                  then Some permission_denied else None).

(** Nothing exists. *)
Definition empty : World :=
  {| path_exists := fun _ => false;
     read_text := fun _ => inr "[Errno 2] No such file or directory";
     rglob := fun _ _ => [];
     open_w := fun _ => None |}.

(** What an earlier run left in the working directory. *)
Definition stale : gmap string string :=
  <["missing_functions.json" := "[stale]"]> ∅.

(** A reference tree for [detailed_verification.py] with twelve node
    files, one of them an [__init__.py] and one under a [tests] directory. *)
Definition node_paths : list string :=
  map (fun n => "/workspaces/reservoir-cpp/reservoirpy/nodes/" +:+ n)
      ["__init__.py"; "a.py"; "b.py"; "c.py"; "d.py"; "tests/test_e.py";
       "f.py"; "g.py"; "h.py"; "i.py"; "j.py"; "k.py"].

Definition with_nodes : World :=
  {| path_exists := fun _ => true;
     read_text := fun p =>
       if String.eqb p "/workspaces/reservoir-cpp/include/esn/reservoir.hpp"
       then inl "class Reservoir {};"
       else if String.eqb p "/workspaces/reservoir-cpp/reservoirpy/nodes/a.py"
       then inl "class Reservoir(Node):"
       else inr "[Errno 2] No such file or directory";
     rglob := fun root pat =>
       if String.eqb root "/workspaces/reservoir-cpp/reservoirpy/nodes"
          && String.eqb pat "*.py"
       then node_paths
       else if String.eqb root "/workspaces/reservoir-cpp/include"
               && String.eqb pat "*.hpp"
       then ["/workspaces/reservoir-cpp/include/esn/reservoir.hpp"]
       else [];
     open_w := fun _ => None |}.

End Sample.

(** * Properties *)

(** ** Sample runs *)

Example strip_ex : Py.strip "   def foo(x):  " = "def foo(x):".
Proof. reflexivity. Qed.

Example split_ex : Py.split "010" ("a" +:+ String "010" "b" +:+ String "010" "") = ["a"; "b"; ""].
Proof. reflexivity. Qed.

Example replace_ex : Py.replace "def " "" "def undef f" = "unf".
Proof. reflexivity. Qed.

Example lower_ex : Py.lower "FooBar_9" = "foobar_9".
Proof. reflexivity. Qed.

Example scan_ex :
  scan_content
    ("class Node:" +:+ String "010" "    def run(self, x):" +:+ String "010"
     "    def _step(self):" +:+ String "010" "def  helper (a):" +:+ String "010"
     "class _Private(Node):" +:+ String "010" "x = 1")
  = (["run"; " helper "], ["Node"; "_Private"]).
Proof. reflexivity. Qed.

Example dumps_ex :
  Json.dumps [ {| Json.name := "run"; Json.module := "node.py" |} ]
  = "[{" +:+ String Py.dquote "name" +:+ String Py.dquote ": "
         +:+ String Py.dquote "run" +:+ String Py.dquote ", "
         +:+ String Py.dquote "module" +:+ String Py.dquote ": "
         +:+ String Py.dquote "node.py" +:+ String Py.dquote "}]".
Proof. reflexivity. Qed.

Example load_ex :
  JsonLoad.load_entries
    (Json.dumps [ {| Json.name := "a" +:+ String Py.dquote (String "010" "\b");
                     Json.module := "node.py" |};
                  {| Json.name := String "233" "t" +:+ String "127" "";
                     Json.module := "" |} ])
  = Some [ {| Json.name := "a" +:+ String Py.dquote (String "010" "\b");
              Json.module := "node.py" |};
           {| Json.name := String "233" "t" +:+ String "127" "";
              Json.module := "" |} ].
Proof. reflexivity. Qed.

Example sample_check_alpha :
  TestVerification.check_cpp_equivalent Sample.writable "alpha" "include" "src"
  = (true, "Found in include/alpha.hpp").
Proof. reflexivity. Qed.

Example sample_state :
  TestVerification.run_modules Sample.writable core_modules
  = {| verification_results :=
         [("node.py",
           {| function_results :=
                [("alpha", true, "Found in include/alpha.hpp");
                 ("zeta", false, "NOT FOUND")];
              class_results := [("Gamma", true, "Found in src/gamma.cpp")] |});
          ("ops.py",
           {| function_results := [("zeta", false, "NOT FOUND")];
              class_results := [] |})];
       missing_functions :=
         [ {| Json.name := "zeta"; Json.module := "node.py" |};
           {| Json.name := "zeta"; Json.module := "ops.py" |} ];
       missing_classes := [] |}.
Proof. reflexivity. Qed.

Example sample_coverage :
  coverage_percentage
    (TestVerification.summary
       (TestVerification.run_modules Sample.writable core_modules)) == 50.
Proof. vm_compute. reflexivity. Qed.

Example sample_main :
  fst (TestVerification.main Sample.writable Sample.stale) = Returned false.
Proof. reflexivity. Qed.

(** ** Strings *)

Section StringFacts.

Lemma append_nil_r (s : string) : s +:+ "" = s.
Proof. induction s as [|c s IH]; simpl; [reflexivity | now rewrite IH]. Qed.

Lemma append_assoc (a b c : string) : (a +:+ b) +:+ c = a +:+ (b +:+ c).
Proof. induction a as [|x a IH]; simpl; [reflexivity | now rewrite IH]. Qed.

Lemma startswith_append (p r : string) : Py.startswith p (p +:+ r) = true.
Proof.
  induction p as [|c p IH]; simpl; [reflexivity |].
  now rewrite Ascii.eqb_refl.
Qed.

Lemma startswith_inv (p s : string) :
  Py.startswith p s = true -> exists r, s = p +:+ r.
Proof.
  revert s; induction p as [|c p IH]; intros s H.
  - exists s; reflexivity.
  - destruct s as [|d s]; simpl in H; [discriminate |].
    destruct (Ascii.eqb_spec c d) as [->|]; [| discriminate].
    destruct (IH _ H) as [r ->]. exists r; reflexivity.
Qed.

Lemma startswith_iff (p s : string) :
  Py.startswith p s = true <-> exists r, s = p +:+ r.
Proof.
  split; [apply startswith_inv |].
  intros [r ->]. apply startswith_append.
Qed.

Lemma contains_nil (hay : string) : Py.contains "" hay = true.
Proof. destruct hay; reflexivity. Qed.

Lemma contains_intro (before needle after : string) :
  Py.contains needle (before +:+ needle +:+ after) = true.
Proof.
  induction before as [|c b IH]; simpl.
  - destruct needle as [|x n]; simpl.
    + apply contains_nil.
    + rewrite Ascii.eqb_refl, startswith_append. reflexivity.
  - rewrite IH. apply orb_true_r.
Qed.

Lemma contains_inv (needle hay : string) :
  Py.contains needle hay = true -> occurs_in needle hay.
Proof.
  induction hay as [|c h IH]; simpl; intros H.
  - destruct needle; [| discriminate]. exists "", ""; reflexivity.
  - apply orb_true_iff in H as [H|H].
    + apply startswith_inv in H as [r Hr]. exists "", r. exact Hr.
    + destruct (IH H) as (b & a & ->). exists (String c b), a. reflexivity.
Qed.

(** [in] on strings decides occurrence. *)
Lemma contains_iff (needle hay : string) :
  Py.contains needle hay = true <-> occurs_in needle hay.
Proof.
  split; [apply contains_inv |].
  intros (b & a & ->). apply contains_intro.
Qed.

End StringFacts.

(** ** The equivalence search *)

Section Search.

Variable w : World.
Variable item_name : string.

(** With a root whose parent is the current directory, the loop over the
    files is a search for the first matching file. *)
Lemma search_files_find (root : string) (files : list string) :
  PathLib.parent root = "." ->
  TestVerification.search_files w item_name root files
  = match List.find (Reference.file_matches w item_name) files with
    | Some file => Some (true, "Found in " +:+ file)
    | None => None
    end.
Proof.
  intros Hroot. induction files as [|file rest IH]; simpl; [reflexivity |].
  unfold Reference.file_matches at 1.
  destruct (read_text w file) as [text|e]; [| exact IH].
  destruct (Py.contains (Py.lower item_name) (Py.lower text)); [| exact IH].
  rewrite Hroot. reflexivity.
Qed.

Lemma find_app {A : Type} (f : A -> bool) (l1 l2 : list A) :
  List.find f (l1 ++ l2)
  = match List.find f l1 with
    | Some x => Some x
    | None => List.find f l2
    end.
Proof.
  induction l1 as [|x l1 IH]; simpl; [reflexivity |].
  destruct (f x); [reflexivity | exact IH].
Qed.

Lemma search_roots_find :
  TestVerification.search_roots w item_name
    [TestVerification.cpp_headers_dir; TestVerification.cpp_src_dir]
  = match List.find (Reference.file_matches w item_name) (Reference.traversal w) with
    | Some file => Some (true, "Found in " +:+ file)
    | None => None
    end.
Proof.
  unfold Reference.traversal. simpl.
  rewrite !search_files_find by reflexivity.
  rewrite app_nil_r.
  destruct (path_exists w TestVerification.cpp_headers_dir);
    destruct (path_exists w TestVerification.cpp_src_dir);
    simpl; rewrite ?app_nil_r, ?find_app;
    repeat match goal with
      | |- context [List.find ?f ?l] => destruct (List.find f l)
      end; reflexivity.
Qed.

(** [check_cpp_equivalent], as [main] calls it, reports the first file of
    the traversal that matches. *)
Lemma check_cpp_equivalent_find :
  TestVerification.check_cpp_equivalent w item_name
    TestVerification.cpp_headers_dir TestVerification.cpp_src_dir
  = match List.find (Reference.file_matches w item_name) (Reference.traversal w) with
    | Some file => (true, "Found in " +:+ file)
    | None => (false, "NOT FOUND")
    end.
Proof.
  unfold TestVerification.check_cpp_equivalent.
  rewrite search_roots_find.
  destruct (List.find _ _); reflexivity.
Qed.

Lemma find_first {A : Type} (f : A -> bool) (pre post : list A) (x : A) :
  (forall y, In y pre -> f y = false) -> f x = true ->
  List.find f (pre ++ x :: post) = Some x.
Proof.
  intros Hpre Hx. induction pre as [|y pre IH]; simpl.
  - now rewrite Hx.
  - rewrite (Hpre y) by (left; reflexivity).
    apply IH. intros z Hz. apply Hpre. right; exact Hz.
Qed.

Lemma find_none_iff {A : Type} (f : A -> bool) (l : list A) :
  List.find f l = None <-> forall y, In y l -> f y = false.
Proof.
  induction l as [|x l IH]; simpl.
  - split; [intros _ y [] | reflexivity].
  - destruct (f x) eqn:Hx.
    + split; [discriminate |]. intros H.
      rewrite (H x) in Hx by (left; reflexivity). discriminate.
    + rewrite IH. split.
      * intros H y [<-|Hy]; [exact Hx | apply H, Hy].
      * intros H y Hy. apply H. right; exact Hy.
Qed.

Lemma found_iff :
  Reference.found w item_name = true
  <-> exists file, In file (Reference.traversal w)
                   /\ Reference.file_matches w item_name file = true.
Proof.
  unfold Reference.found. rewrite check_cpp_equivalent_find.
  destruct (List.find _ _) as [file|] eqn:Hfind; simpl.
  - split; [intros _ | reflexivity].
    exists file. apply List.find_some in Hfind. exact Hfind.
  - split; [discriminate |]. intros (file & Hin & Hm).
    rewrite find_none_iff in Hfind. rewrite (Hfind file Hin) in Hm.
    discriminate.
Qed.

End Search.


Lemma file_matches_iff (w : World) (item_name file : string) :
  Reference.file_matches w item_name file = true
  <-> exists text, read_text w file = inl text
                   /\ occurs_in (Py.lower item_name) (Py.lower text).
Proof.
  unfold Reference.file_matches.
  destruct (read_text w file) as [text|e].
  - rewrite contains_iff. split.
    + intros H. exists text. split; [reflexivity | exact H].
    + intros (t & Ht & H). injection Ht as <-. exact H.
  - split; [discriminate |]. intros (t & Ht & _). discriminate.
Qed.



(** The search of [detailed_verification.py] follows the same rule over its
    own traversal: the headers that match [*.hpp], then the sources that
    match [*.cpp]. The files [rglob] yields lie under their root. *)
Section DetailedSearch.

Variable w : World.
Variable item_name : string.

Lemma detailed_search_files_some (root : string) (files : list string) (r : bool * string) :
  DetailedVerification.search_files w item_name root files = Some r ->
  fst r = true
  /\ exists file, In file files /\ Reference.file_matches w item_name file = true.
Proof.
  induction files as [|file rest IH]; simpl; [discriminate |].
  destruct (read_text w file) as [text|e] eqn:Hread.
  - destruct (Py.contains (Py.lower item_name) (Py.lower text)) eqn:Hc.
    + destruct (PathLib.relative_to file root).
      * intros H. injection H as <-. split; [reflexivity |].
        exists file. split; [left; reflexivity |].
        unfold Reference.file_matches. now rewrite Hread.
      * intros H. destruct (IH H) as (? & f & ? & ?). eauto.
    + intros H. destruct (IH H) as (? & f & ? & ?). eauto.
  - intros H. destruct (IH H) as (? & f & ? & ?). eauto.
Qed.

Lemma detailed_search_files_none (root : string) (files : list string) :
  (forall f, In f files -> PathLib.relative_to f root <> None) ->
  DetailedVerification.search_files w item_name root files = None ->
  forall f, In f files -> Reference.file_matches w item_name f = false.
Proof.
  induction files as [|file rest IH]; simpl; intros Hrel H f Hf; [tauto |].
  assert (Hrest : forall g, In g rest -> PathLib.relative_to g root <> None)
    by (intros g Hg; apply Hrel; right; exact Hg).
  pose proof (Hrel file (or_introl eq_refl)) as Hfile.
  unfold Reference.file_matches.
  destruct Hf as [<-|Hf].
  - destruct (read_text w file) as [text|e]; [| reflexivity].
    destruct (Py.contains (Py.lower item_name) (Py.lower text)); [| reflexivity].
    destruct (PathLib.relative_to file root); [discriminate | congruence].
  - apply (IH Hrest); [| exact Hf].
    destruct (read_text w file) as [text|e]; [| exact H].
    destruct (Py.contains (Py.lower item_name) (Py.lower text)); [| exact H].
    destruct (PathLib.relative_to file root); [discriminate | congruence].
Qed.

Lemma detailed_found_iff (headers src : string) :
  (forall f, In f (rglob w headers "*.hpp") -> PathLib.relative_to f headers <> None) ->
  (forall f, In f (rglob w src "*.cpp") -> PathLib.relative_to f src <> None) ->
  fst (DetailedVerification.check_cpp_equivalent w item_name headers src) = true
  <-> exists file,
        In file (rglob w headers "*.hpp" ++ rglob w src "*.cpp")
        /\ Reference.file_matches w item_name file = true.
Proof.
  intros Hh Hs. unfold DetailedVerification.check_cpp_equivalent.
  destruct (DetailedVerification.search_files w item_name headers _) as [r|] eqn:H1.
  - apply detailed_search_files_some in H1 as (Hr & f & Hf & Hm).
    split; [| intros _; exact Hr].
    intros _. exists f. rewrite in_app_iff. auto.
  - pose proof (detailed_search_files_none _ _ Hh H1) as N1.
    destruct (DetailedVerification.search_files w item_name src _) as [r|] eqn:H2.
    + apply detailed_search_files_some in H2 as (Hr & f & Hf & Hm).
      split; [| intros _; exact Hr].
      intros _. exists f. rewrite in_app_iff. auto.
    + pose proof (detailed_search_files_none _ _ Hs H2) as N2.
      split; [discriminate |].
      intros (f & Hf & Hm). apply in_app_iff in Hf as [Hf|Hf].
      * rewrite (N1 f Hf) in Hm. discriminate.
      * rewrite (N2 f Hf) in Hm. discriminate.
Qed.

End DetailedSearch.

(** ** Extraction *)

Section Extraction.

Lemma scan_line_classify (fs cs : list string) (raw : string) :
  scan_line (fs, cs) raw
  = match classify_line (Py.strip raw) with
    | Some (Function, n) => (fs ++ [n], cs)
    | Some (Class, n) => (fs, cs ++ [n])
    | None => (fs, cs)
    end.
Proof.
  unfold scan_line, classify_line.
  destruct (Py.startswith "def " (Py.strip raw)
            && negb (Py.startswith "def _" (Py.strip raw))); [reflexivity |].
  destruct (Py.startswith "class " (Py.strip raw)); reflexivity.
Qed.

(** The loop keeps the order of the lines, kind by kind. *)
Lemma scan_lines_names (lines : list string) (fs cs : list string) :
  fold_left scan_line lines (fs, cs)
  = (fs ++ names_of Function lines, cs ++ names_of Class lines).
Proof.
  revert fs cs. induction lines as [|raw lines IH]; intros fs cs.
  - simpl. now rewrite !app_nil_r.
  - cbn [fold_left]. rewrite scan_line_classify.
    unfold names_of. cbn [flat_map]. fold (names_of Function lines).
    fold (names_of Class lines).
    destruct (classify_line (Py.strip raw)) as [[[|] n]|];
      rewrite IH; rewrite <- ?app_assoc; reflexivity.
Qed.

Lemma scan_content_names (content : string) :
  scan_content content
  = (names_of Function (Py.split "010" content),
     names_of Class (Py.split "010" content)).
Proof. unfold scan_content. now rewrite scan_lines_names. Qed.

Lemma analyze_ok (w : World) (py_file content : string) :
  read_text w py_file = inl content ->
  analyze_python_module w py_file
  = {| functions := names_of Function (Py.split "010" content);
       classes := names_of Class (Py.split "010" content);
       path := py_file; error := None |}.
Proof.
  intros H. unfold analyze_python_module. rewrite H, scan_content_names.
  reflexivity.
Qed.

Lemma analyze_error (w : World) (py_file e : string) :
  read_text w py_file = inr e ->
  analyze_python_module w py_file
  = {| functions := []; classes := []; path := py_file; error := Some e |}.
Proof. intros H. unfold analyze_python_module. now rewrite H. Qed.

Lemma names_of_app (k : Kind) (l1 l2 : list string) :
  names_of k (l1 ++ l2) = names_of k l1 ++ names_of k l2.
Proof. unfold names_of. apply flat_map_app. Qed.

Lemma names_of_cons (k : Kind) (raw : string) (lines : list string) :
  names_of k (raw :: lines)
  = match classify_line (Py.strip raw), k with
    | Some (Function, n), Function => [n]
    | Some (Class, n), Class => [n]
    | _, _ => []
    end ++ names_of k lines.
Proof. reflexivity. Qed.

End Extraction.





(** C10. A line that strips to [def (] is taken as a function declaration
    with the empty name; for the empty name the search returns found at the
    first file of the traversal that can be read, with its location. *)
Theorem C10_empty_name_always_found (w : World) :
  (forall fs cs raw,
     Py.strip raw = "def (" -> scan_line (fs, cs) raw = (fs ++ [""], cs))
  /\ (forall pre file post,
        Reference.traversal w = pre ++ file :: post ->
        (forall f, In f pre -> Reference.readable w f = false) ->
        Reference.readable w file = true ->
        TestVerification.check_cpp_equivalent w ""
          TestVerification.cpp_headers_dir TestVerification.cpp_src_dir
        = (true, "Found in " +:+ file)).
Proof.
  split.
  - intros fs cs raw H. rewrite scan_line_classify, H. reflexivity.
  - intros pre file post Ht Hpre Hfile.
    assert (Hm : forall f, Reference.file_matches w "" f = Reference.readable w f).
    { intros f. unfold Reference.file_matches, Reference.readable.
      destruct (read_text w f); [apply contains_nil | reflexivity]. }
    rewrite check_cpp_equivalent_find, Ht.
    rewrite (find_first (Reference.file_matches w "") pre post file).
    + reflexivity.
    + intros f Hf. rewrite Hm. apply Hpre, Hf.
    + rewrite Hm. exact Hfile.
Qed.

Lemma C10_empty_name_witness :
  scan_line ([], []) "    def (" = ([""], [])
  /\ TestVerification.check_cpp_equivalent Sample.writable ""
       TestVerification.cpp_headers_dir TestVerification.cpp_src_dir
     = (true, "Found in include/alpha.hpp").
Proof.
  split.
  - exact (proj1 (C10_empty_name_always_found Sample.writable)
             [] [] "    def (" eq_refl).
  - apply (proj2 (C10_empty_name_always_found Sample.writable)
             ["include/broken.hpp"] "include/alpha.hpp" ["src/gamma.cpp"]).
    + reflexivity.
    + intros f [<-|[]]. reflexivity.
    + reflexivity.
Defined.

(** ** Aggregation *)

Section Aggregation.

Variable w : World.

Lemma dict_set_fresh {V : Type} (d : list (string * V)) (k : string) (v : V) :
  ~ In k (map fst d) -> dict_set d k v = d ++ [(k, v)].
Proof.
  induction d as [|[k' v'] d IH]; simpl; intros Hk; [reflexivity |].
  destruct (String.eqb_spec k' k) as [->|Hne].
  - exfalso. apply Hk. left; reflexivity.
  - rewrite IH; [reflexivity |]. intros Hin. apply Hk. right; exact Hin.
Qed.

Lemma filter_map_comm {A B : Type} (f : B -> bool) (g : A -> B) (l : list A) :
  List.filter f (map g l) = map g (List.filter (fun x => f (g x)) l).
Proof.
  induction l as [|x l IH]; simpl; [reflexivity |].
  destruct (f (g x)); simpl; now rewrite IH.
Qed.

Lemma check_item_spec (module item : string)
    (rs : list (string * bool * string)) (ms : list Json.Entry) :
  TestVerification.check_item w module (rs, ms) item
  = (rs ++ [Reference.triple w item],
     if negb (Reference.found w item)
     then ms ++ [ {| Json.name := item; Json.module := module |} ]
     else ms).
Proof.
  unfold TestVerification.check_item, Reference.triple, Reference.found.
  destruct (TestVerification.check_cpp_equivalent w item _ _); reflexivity.
Qed.

(** The loop over the symbols of a module. *)
Lemma check_items_fold (module : string) (items : list string)
    (rs : list (string * bool * string)) (ms : list Json.Entry) :
  fold_left (TestVerification.check_item w module) items (rs, ms)
  = (rs ++ map (Reference.triple w) items,
     ms ++ map (fun n => {| Json.name := n; Json.module := module |})
             (List.filter (fun n => negb (Reference.found w n)) items)).
Proof.
  revert rs ms. induction items as [|item items IH]; intros rs ms.
  - simpl. now rewrite !app_nil_r.
  - cbn [fold_left]. rewrite check_item_spec, IH.
    cbn [map List.filter].
    destruct (negb (Reference.found w item)); cbn [map];
      rewrite <- ?app_assoc; reflexivity.
Qed.

Lemma module_step_spec (st : MainState) (module : string) :
  TestVerification.module_step w st module
  = match Reference.module_analysis w module with
    | Some a =>
        {| verification_results :=
             dict_set (verification_results st) module (Reference.result_of w a);
           missing_functions :=
             missing_functions st ++ Reference.missing_of w Function module a;
           missing_classes :=
             missing_classes st ++ Reference.missing_of w Class module a |}
    | None => st
    end.
Proof.
  unfold TestVerification.module_step, Reference.module_analysis.
  destruct (path_exists w _); [| reflexivity].
  destruct (error (analyze_python_module w _)); [reflexivity |].
  rewrite !check_items_fold. unfold Reference.missing_of.
  rewrite !filter_map_comm. reflexivity.
Qed.

(** The state after the loop over distinct modules. *)
Lemma run_fold_spec (modules : list string) (st : MainState) :
  List.NoDup modules ->
  (forall k, In k modules -> ~ In k (map fst (verification_results st))) ->
  fold_left (TestVerification.module_step w) modules st
  = {| verification_results :=
         verification_results st ++ Reference.results w modules;
       missing_functions :=
         missing_functions st ++ Reference.missing_symbols Function w modules;
       missing_classes :=
         missing_classes st ++ Reference.missing_symbols Class w modules |}.
Proof.
  revert st. induction modules as [|m modules IH]; intros st Hnd Hfresh.
  - simpl. unfold Reference.missing_symbols, Reference.symbols, Reference.results.
    simpl. rewrite !app_nil_r. destruct st; reflexivity.
  - inversion Hnd as [|? ? Hm Hnd']; subst.
    cbn [fold_left]. rewrite IH; [| exact Hnd' |].
    + rewrite module_step_spec.
      unfold Reference.missing_symbols, Reference.symbols, Reference.results.
      cbn [flat_map]. rewrite !List.filter_app.
      destruct (Reference.module_analysis w m) as [a|]; cbn [app].
      * cbn [verification_results missing_functions missing_classes].
        rewrite dict_set_fresh by (apply Hfresh; left; reflexivity).
        unfold Reference.missing_of. rewrite <- !app_assoc. reflexivity.
      * reflexivity.
    + intros k Hk. rewrite module_step_spec.
      destruct (Reference.module_analysis w m) as [a|].
      * cbn [verification_results].
        rewrite dict_set_fresh by (apply Hfresh; left; reflexivity).
        rewrite map_app, in_app_iff. intros [Hin|[Heq|[]]].
        -- apply (Hfresh k); [right; exact Hk | exact Hin].
        -- simpl in Heq. subst k. apply Hm, Hk.
      * apply Hfresh. right; exact Hk.
Qed.

Lemma core_modules_NoDup : List.NoDup core_modules.
Proof.
  unfold core_modules.
  repeat (constructor; [simpl; intuition discriminate |]). constructor.
Qed.

Lemma run_modules_spec :
  TestVerification.run_modules w core_modules
  = {| verification_results := Reference.results w core_modules;
       missing_functions := Reference.missing_symbols Function w core_modules;
       missing_classes := Reference.missing_symbols Class w core_modules |}.
Proof.
  unfold TestVerification.run_modules.
  rewrite run_fold_spec; [reflexivity | apply core_modules_NoDup |].
  intros k _ [].
Qed.

End Aggregation.

Section Counting.

Variable w : World.

Lemma len_app {A : Type} (a b : list A) : len (a ++ b) = (len a + len b)%Z.
Proof. unfold len. rewrite length_app. lia. Qed.

Lemma len_map {A B : Type} (f : A -> B) (l : list A) : len (map f l) = len l.
Proof. unfold len. now rewrite length_map. Qed.

Lemma len_nonneg {A : Type} (l : list A) : (0 <= len l)%Z.
Proof. unfold len. lia. Qed.

Lemma sumZ_app (a b : list Z) : sumZ (a ++ b) = (sumZ a + sumZ b)%Z.
Proof. induction a as [|x a IH]; simpl; [reflexivity | rewrite IH; lia]. Qed.

Lemma count_has_cpp_triples (items : list string) :
  count_has_cpp (map (Reference.triple w) items)
  = len (List.filter (Reference.found w) items).
Proof.
  unfold count_has_cpp. rewrite filter_map_comm, len_map. reflexivity.
Qed.

Lemma kind_results_of (k : Kind) (a : Analysis) :
  Reference.kind_results k (Reference.result_of w a)
  = map (Reference.triple w) (Reference.names k a).
Proof. destruct k; reflexivity. Qed.

(** The total of a kind is the number of extracted symbols of the kind. *)
Lemma total_spec (k : Kind) (modules : list string) :
  sumZ (map (fun r => len (Reference.kind_results k r))
            (dict_values (Reference.results w modules)))
  = len (Reference.symbols k w modules).
Proof.
  unfold dict_values, Reference.results, Reference.symbols.
  induction modules as [|m modules IH]; [reflexivity |].
  cbn [flat_map]. rewrite !map_app, sumZ_app, len_app, IH.
  destruct (Reference.module_analysis w m) as [a|]; [| reflexivity].
  cbn [map fst snd sumZ fold_right].
  rewrite kind_results_of, !len_map. lia.
Qed.

(** The implemented count of a kind is the number of found symbols. *)
Lemma implemented_spec (k : Kind) (modules : list string) :
  sumZ (map (fun r => count_has_cpp (Reference.kind_results k r))
            (dict_values (Reference.results w modules)))
  = len (Reference.found_symbols k w modules).
Proof.
  unfold dict_values, Reference.results, Reference.found_symbols,
    Reference.symbols.
  induction modules as [|m modules IH]; [reflexivity |].
  cbn [flat_map]. rewrite !map_app, sumZ_app, List.filter_app, len_app, IH.
  destruct (Reference.module_analysis w m) as [a|]; [| reflexivity].
  cbn [map fst snd sumZ fold_right].
  rewrite kind_results_of, count_has_cpp_triples.
  rewrite filter_map_comm, len_map. unfold Reference.entry_found.
  cbn [Json.name]. rewrite Z.add_0_r. reflexivity.
Qed.

Lemma summary_counts :
  let sm := TestVerification.summary
              (TestVerification.run_modules w core_modules) in
  total_functions sm = len (Reference.symbols Function w core_modules)
  /\ implemented_functions sm
     = len (Reference.found_symbols Function w core_modules)
  /\ total_classes sm = len (Reference.symbols Class w core_modules)
  /\ implemented_classes sm
     = len (Reference.found_symbols Class w core_modules).
Proof.
  cbv zeta. rewrite run_modules_spec.
  unfold TestVerification.summary.
  cbn [verification_results total_functions implemented_functions
         total_classes implemented_classes].
  repeat split.
  - apply (total_spec Function).
  - apply (implemented_spec Function).
  - apply (total_spec Class).
  - apply (implemented_spec Class).
Qed.

Lemma filter_partition_perm {A : Type} (f : A -> bool) (l : list A) :
  Permutation l (List.filter f l ++ List.filter (fun x => negb (f x)) l).
Proof.
  induction l as [|x l IH]; simpl; [constructor |].
  destruct (f x); simpl.
  - constructor. exact IH.
  - apply Permutation_cons_app. exact IH.
Qed.

Lemma filter_partition_len {A : Type} (f : A -> bool) (l : list A) :
  len l = (len (List.filter f l) + len (List.filter (fun x => negb (f x)) l))%Z.
Proof.
  rewrite <- len_app. unfold len. f_equal.
  apply Permutation_length, filter_partition_perm.
Qed.

Lemma count_occ_filter_true {A : Type} (dec : forall a b : A, {a = b} + {a <> b})
    (f : A -> bool) (l : list A) (x : A) :
  f x = true -> count_occ dec (List.filter f l) x = count_occ dec l x.
Proof.
  intros Hx. induction l as [|y l IH]; simpl; [reflexivity |].
  destruct (f y) eqn:Hy; simpl.
  - destruct (dec y x); now rewrite IH.
  - destruct (dec y x) as [->|]; [congruence | exact IH].
Qed.

End Counting.

(** ** The coverage report *)

(** C1. In the report of a run the coverage percentage is the number of
    found symbols divided by the number of extracted symbols, times 100,
    when at least one symbol was extracted, and 100 when none was (the
    division is not evaluated then). The division is taken on the
    rationals. *)
Theorem C1_coverage_percentage_formula (w : World) :
  let sm := TestVerification.summary
              (TestVerification.run_modules w core_modules) in
  let implemented :=
    (len (Reference.found_symbols Function w core_modules)
     + len (Reference.found_symbols Class w core_modules))%Z in
  let total :=
    (len (Reference.symbols Function w core_modules)
     + len (Reference.symbols Class w core_modules))%Z in
  ((0 < total)%Z ->
   coverage_percentage sm == inject_Z implemented / inject_Z total * 100)
  /\ (total = 0%Z -> coverage_percentage sm == 100).
Proof.
  intros sm implemented total.
  destruct (summary_counts w) as (Htf & Hif & Htc & Hic). fold sm in Htf, Hif, Htc, Hic.
  assert (Hcov : coverage_percentage sm
                 = if (0 <? total_functions sm + total_classes sm)%Z
                   then (inject_Z (implemented_functions sm + implemented_classes sm)
                         / inject_Z (total_functions sm + total_classes sm) * 100)%Q
                   else 100%Q) by reflexivity.
  rewrite Hcov, Htf, Hif, Htc, Hic. fold implemented total.
  split; intros H.
  - apply Z.ltb_lt in H. rewrite H. reflexivity.
  - rewrite H. reflexivity.
Qed.

Lemma C1_coverage_witness :
  coverage_percentage
    (TestVerification.summary
       (TestVerification.run_modules Sample.writable core_modules))
  == inject_Z 2 / inject_Z 4 * 100
  /\ coverage_percentage
       (TestVerification.summary
          (TestVerification.run_modules Sample.empty core_modules))
     == 100.
Proof.
  split.
  - exact (proj1 (C1_coverage_percentage_formula Sample.writable) eq_refl).
  - exact (proj2 (C1_coverage_percentage_formula Sample.empty) eq_refl).
Defined.

(** C6. For each kind, the missing list of a run holds exactly the
    extracted symbols of the kind that the search does not find, in the
    order of extraction, and the implemented count is the number of those
    it finds: found and missing symbols are disjoint and together make up
    the extracted symbols. Nothing is deduplicated: a symbol that is not
    found is in the missing list as many times as it was extracted, and the
    same name from two modules gives two different entries. *)
Theorem C6_found_and_missing_partition (w : World) (k : Kind) :
  let st := TestVerification.run_modules w core_modules in
  let sm := TestVerification.summary st in
  let missing :=
    match k with
    | Function => missing_functions st
    | Class => missing_classes st
    end in
  let total :=
    match k with
    | Function => total_functions sm
    | Class => total_classes sm
    end in
  let implemented :=
    match k with
    | Function => implemented_functions sm
    | Class => implemented_classes sm
    end in
  let extracted := Reference.symbols k w core_modules in
  let found := Reference.found_symbols k w core_modules in
  missing = List.filter (fun e => negb (Reference.entry_found w e)) extracted
  /\ implemented = len found
  /\ total = len extracted
  /\ total = (implemented + len missing)%Z
  /\ Permutation extracted (found ++ missing)
  /\ (forall e, In e found -> ~ In e missing)
  /\ (forall e, In e extracted -> In e found \/ In e missing)
  /\ (forall e, Reference.entry_found w e = false ->
                count_occ Json.Entry_eq_dec missing e
                = count_occ Json.Entry_eq_dec extracted e)
  /\ (forall n m1 m2,
        m1 <> m2 ->
        In {| Json.name := n; Json.module := m1 |} extracted ->
        In {| Json.name := n; Json.module := m2 |} extracted ->
        Reference.found w n = false ->
        In {| Json.name := n; Json.module := m1 |} missing
        /\ In {| Json.name := n; Json.module := m2 |} missing
        /\ {| Json.name := n; Json.module := m1 |}
           <> {| Json.name := n; Json.module := m2 |}).
Proof.
  intros st sm missing total implemented extracted found.
  destruct (summary_counts w) as (Htf & Hif & Htc & Hic).
  fold st in Htf, Hif, Htc, Hic. fold sm in Htf, Hif, Htc, Hic.
  assert (Hmiss : missing = Reference.missing_symbols k w core_modules).
  { subst missing st. rewrite run_modules_spec. destruct k; reflexivity. }
  assert (Himpl : implemented = len found) by (destruct k; assumption).
  assert (Htot : total = len extracted) by (destruct k; assumption).
  clearbody missing total implemented. subst missing implemented total.
  unfold Reference.missing_symbols. fold extracted.
  unfold found, Reference.found_symbols. fold extracted.
  split; [reflexivity |]. split; [reflexivity |]. split; [reflexivity |].
  split; [apply filter_partition_len |].
  split; [apply filter_partition_perm |].
  split.
  { intros e Hf Hm. apply filter_In in Hf as [_ Hf]. apply filter_In in Hm as [_ Hm].
    rewrite Hf in Hm. discriminate. }
  split.
  { intros e He. destruct (Reference.entry_found w e) eqn:Hfe.
    - left. apply filter_In. auto.
    - right. apply filter_In. rewrite Hfe. auto. }
  split.
  { intros e He. apply count_occ_filter_true. now rewrite He. }
  intros n m1 m2 Hne H1 H2 Hn. repeat split.
  - apply filter_In. split; [exact H1 |].
    unfold Reference.entry_found. cbn [Json.name]. now rewrite Hn.
  - apply filter_In. split; [exact H2 |].
    unfold Reference.entry_found. cbn [Json.name]. now rewrite Hn.
  - intros Heq. apply Hne. now injection Heq.
Qed.

Lemma C6_partition_witness :
  In {| Json.name := "zeta"; Json.module := "node.py" |}
     (missing_functions (TestVerification.run_modules Sample.writable core_modules))
  /\ In {| Json.name := "zeta"; Json.module := "ops.py" |}
        (missing_functions (TestVerification.run_modules Sample.writable core_modules))
  /\ {| Json.name := "zeta"; Json.module := "node.py" |}
     <> {| Json.name := "zeta"; Json.module := "ops.py" |}.
Proof.
  apply (C6_found_and_missing_partition Sample.writable Function).
  - discriminate.
  - vm_compute. tauto.
  - vm_compute. tauto.
  - reflexivity.
Defined.

(** ** The artifacts *)

Section JsonRoundTrip.

Lemma string_length_append (a b : string) :
  String.length (a +:+ b) = String.length a + String.length b.
Proof. induction a as [|c a IH]; simpl; [reflexivity | now rewrite IH]. Qed.

(** The scanner undoes the escape of one character. *)
Lemma scan_escape_char (c : ascii) (rest : string) :
  JsonLoad.scan_string (Json.escape_char c +:+ rest)
  = JsonLoad.push c (JsonLoad.scan_string rest).
Proof. destruct c as [[] [] [] [] [] [] [] []]; reflexivity. Qed.

Lemma scan_escape (s rest : string) :
  JsonLoad.scan_string (Json.escape s +:+ String Py.dquote rest)
  = Some (s, rest).
Proof.
  induction s as [|c s IH]; [reflexivity |].
  cbn [Json.escape]. rewrite append_assoc, scan_escape_char, IH.
  reflexivity.
Qed.

Lemma dump_string_append (s rest : string) :
  Json.dump_string s +:+ rest
  = String Py.dquote (Json.escape s +:+ String Py.dquote rest).
Proof. unfold Json.dump_string. cbn [String.append]. now rewrite append_assoc. Qed.

Lemma parse_dump_string (s rest : string) :
  JsonLoad.parse_string (Json.dump_string s +:+ rest) = Some (s, rest).
Proof. rewrite dump_string_append. apply scan_escape. Qed.

Lemma parse_dump_string_space (s rest : string) :
  JsonLoad.parse_string (String " " (Json.dump_string s +:+ rest))
  = Some (s, rest).
Proof. rewrite dump_string_append. apply scan_escape. Qed.

Lemma dump_entry_append (e : Json.Entry) (rest : string) :
  Json.dump_entry e +:+ rest
  = String "{" (Json.dump_string "name" +:+ String ":" (String " "
      (Json.dump_string (Json.name e) +:+ String "," (String " "
        (Json.dump_string "module" +:+ String ":" (String " "
          (Json.dump_string (Json.module e) +:+ String "}" rest))))))).
Proof.
  unfold Json.dump_entry. cbn [String.append].
  repeat (rewrite !append_assoc; cbn [String.append]).
  reflexivity.
Qed.

Lemma parse_member_dump (k v rest : string) :
  JsonLoad.parse_member
    (Json.dump_string k +:+ String ":" (String " " (Json.dump_string v +:+ rest)))
  = Some ((k, v), JsonLoad.skip_ws rest).
Proof.
  unfold JsonLoad.parse_member.
  rewrite parse_dump_string. cbn [JsonLoad.skip_ws JsonLoad.is_ws].
  rewrite parse_dump_string_space. reflexivity.
Qed.

Lemma parse_member_dump_space (k v rest : string) :
  JsonLoad.parse_member
    (String " " (Json.dump_string k +:+ String ":"
                   (String " " (Json.dump_string v +:+ rest))))
  = Some ((k, v), JsonLoad.skip_ws rest).
Proof.
  unfold JsonLoad.parse_member.
  rewrite parse_dump_string_space. cbn [JsonLoad.skip_ws JsonLoad.is_ws].
  rewrite parse_dump_string_space. reflexivity.
Qed.

Lemma parse_members_dump (fuel : nat) (e : Json.Entry) (rest : string) :
  JsonLoad.parse_members (S (S fuel))
    (Json.dump_string "name" +:+ String ":" (String " "
      (Json.dump_string (Json.name e) +:+ String "," (String " "
        (Json.dump_string "module" +:+ String ":" (String " "
          (Json.dump_string (Json.module e) +:+ String "}" rest)))))))
  = Some (JsonLoad.members_of e, rest).
Proof.
  cbn [JsonLoad.parse_members]. rewrite parse_member_dump.
  cbn [JsonLoad.skip_ws JsonLoad.is_ws].
  rewrite parse_member_dump_space. reflexivity.
Qed.

Lemma parse_object_dump (e : Json.Entry) (rest : string) :
  JsonLoad.parse_object (Json.dump_entry e +:+ rest)
  = Some (JsonLoad.members_of e, rest).
Proof.
  rewrite dump_entry_append. unfold JsonLoad.parse_object.
  cbn [JsonLoad.skip_ws JsonLoad.is_ws].
  rewrite (dump_string_append "name").
  cbn [JsonLoad.skip_ws JsonLoad.is_ws Py.dquote String.length].
  rewrite <- (dump_string_append "name").
  apply parse_members_dump.
Qed.

Lemma parse_elements_space (fuel : nat) (s : string) :
  JsonLoad.parse_elements fuel (String " " s) = JsonLoad.parse_elements fuel s.
Proof. destruct fuel; reflexivity. Qed.

Lemma join_cons (e e' : Json.Entry) (l : list Json.Entry) :
  Py.join ", " (map Json.dump_entry (e :: e' :: l))
  = Json.dump_entry e
    +:+ String "," (String " " (Py.join ", " (map Json.dump_entry (e' :: l)))).
Proof. reflexivity. Qed.

Lemma parse_elements_dump (l : list Json.Entry) :
  forall (e : Json.Entry) (fuel : nat) (rest : string),
    length (e :: l) <= fuel ->
    JsonLoad.parse_elements fuel
      (Py.join ", " (map Json.dump_entry (e :: l)) +:+ String "]" rest)
    = Some (map JsonLoad.members_of (e :: l), rest).
Proof.
  induction l as [|e' l IH]; intros e fuel rest Hfuel.
  - destruct fuel as [|fuel]; [simpl in Hfuel; lia |].
    cbn [map Py.join JsonLoad.parse_elements].
    rewrite parse_object_dump. reflexivity.
  - destruct fuel as [|fuel]; [simpl in Hfuel; lia |].
    rewrite join_cons, append_assoc.
    cbn [JsonLoad.parse_elements]. rewrite parse_object_dump.
    cbn [String.append JsonLoad.skip_ws JsonLoad.is_ws].
    rewrite parse_elements_space, IH by (simpl in *; lia).
    reflexivity.
Qed.

Lemma dump_entry_length (e : Json.Entry) : 1 <= String.length (Json.dump_entry e).
Proof. unfold Json.dump_entry. cbn [String.append String.length]. lia. Qed.

Lemma join_length (l : list Json.Entry) :
  length l <= String.length (Py.join ", " (map Json.dump_entry l)).
Proof.
  induction l as [|e l IH]; [simpl; lia |].
  destruct l as [|e' l].
  - cbn [map Py.join length]. apply dump_entry_length.
  - rewrite join_cons, string_length_append.
    pose proof (dump_entry_length e). cbn [String.length].
    simpl length in *. lia.
Qed.

Lemma loads_dumps (l : list Json.Entry) :
  JsonLoad.loads (Json.dumps l) = Some (map JsonLoad.members_of l).
Proof.
  destruct l as [|e l]; [reflexivity |].
  unfold JsonLoad.loads, JsonLoad.parse_array, Json.dumps.
  cbn [String.append JsonLoad.skip_ws JsonLoad.is_ws].
  pose proof (join_length (e :: l)) as Hlen.
  assert (Hhead : exists s, Py.join ", " (map Json.dump_entry (e :: l)) +:+ "]"
                            = String "{" s).
  { destruct l as [|e' l].
    - cbn [map Py.join]. rewrite dump_entry_append. eauto.
    - rewrite join_cons, append_assoc, dump_entry_append. eauto. }
  destruct Hhead as [s Hs].
  assert (Hparse : JsonLoad.parse_elements
                     (String.length (Py.join ", " (map Json.dump_entry (e :: l)) +:+ "]"))
                     (Py.join ", " (map Json.dump_entry (e :: l)) +:+ "]")
                   = Some (map JsonLoad.members_of (e :: l), "")).
  { apply parse_elements_dump. rewrite string_length_append. simpl in *. lia. }
  rewrite Hs in *. cbn [JsonLoad.skip_ws JsonLoad.is_ws].
  rewrite Hparse. reflexivity.
Qed.

Lemma entries_of_members (l : list Json.Entry) :
  JsonLoad.entries_of (map JsonLoad.members_of l) = Some l.
Proof.
  induction l as [|[n m] l IH]; [reflexivity |].
  cbn [map JsonLoad.entries_of]. rewrite IH. reflexivity.
Qed.

(** Loading what [json.dump] wrote gives the entries back. *)
Lemma load_dumps (l : list Json.Entry) :
  JsonLoad.load_entries (Json.dumps l) = Some l.
Proof.
  unfold JsonLoad.load_entries. rewrite loads_dumps.
  apply entries_of_members.
Qed.

End JsonRoundTrip.

Example sample_detailed_main : DetailedVerification.main Sample.writable = false.
Proof. reflexivity. Qed.

Example sample_detailed_main_empty : DetailedVerification.main Sample.empty = true.
Proof. reflexivity. Qed.

(** ** The pass outcome and the exit status *)

Section Outcome.

Lemma sumZ_nonneg (l : list Z) :
  (forall x, In x l -> (0 <= x)%Z) -> (0 <= sumZ l)%Z.
Proof.
  induction l as [|x l IH]; simpl; intros H; [lia |].
  pose proof (H x (or_introl eq_refl)).
  assert (0 <= sumZ l)%Z by (apply IH; intros y Hy; apply H; right; exact Hy).
  lia.
Qed.

Lemma sum_len_nonneg {A B : Type} (f : A -> list B) (l : list A) :
  (0 <= sumZ (map (fun r => len (f r)) l))%Z.
Proof.
  apply sumZ_nonneg. intros x Hx. apply in_map_iff in Hx as (r & <- & _).
  apply len_nonneg.
Qed.

Lemma sum_count_nonneg {A : Type} (f : A -> list (string * bool * string))
    (l : list A) :
  (0 <= sumZ (map (fun r => count_has_cpp (f r)) l))%Z.
Proof.
  apply sumZ_nonneg. intros x Hx. apply in_map_iff in Hx as (r & <- & _).
  apply len_nonneg.
Qed.

(** [implemented >= 0.9 * total] is [percentage >= 90]. *)
Lemma pass_as_percentage (implemented total : Z) :
  (0 <= implemented)%Z -> (0 <= total)%Z ->
  Qle_bool ((9 # 10) * inject_Z total) (inject_Z implemented)
  = Qle_bool 90 (Reference.percentage implemented total).
Proof.
  intros Hi Ht. unfold Reference.percentage.
  destruct total as [|p|p]; [| | lia].
  - apply eq_true_iff_eq. rewrite !Qle_bool_iff.
    unfold Qle, Qmult, inject_Z. cbn. split; intros _; lia.
  - apply eq_true_iff_eq. rewrite !Qle_bool_iff.
    change (0 <? Z.pos p)%Z with true. cbv iota.
    unfold Qle, Qdiv, Qmult, Qinv, inject_Z.
    cbn [Qnum Qden]. rewrite ?Pos2Z.inj_mul. lia.
Qed.

End Outcome.

Section Boundary.

Variable w : World.
Variable fs : gmap string string.

(** What [main] of [test_verification.py] leaves behind, by the two
    [open] calls. *)
Lemma main_cases :
  let st := TestVerification.run_modules w core_modules in
  TestVerification.main w fs
  = match open_w w "missing_functions.json" with
    | Some e => (Raised e, fs)
    | None =>
        match open_w w "missing_classes.json" with
        | Some e =>
            (Raised e,
             <["missing_functions.json" := Json.dumps (missing_functions st)]> fs)
        | None =>
            (Returned (Qle_bool 90 (coverage_percentage (TestVerification.summary st))),
             <["missing_classes.json" := Json.dumps (missing_classes st)]>
               (<["missing_functions.json" := Json.dumps (missing_functions st)]> fs))
        end
    end.
Proof.
  cbv zeta. unfold TestVerification.main.
  destruct (open_w w "missing_functions.json"); [reflexivity |].
  destruct (open_w w "missing_classes.json"); [reflexivity |].
  destruct (Qle_bool 90 _); reflexivity.
Qed.

Lemma main_returned (b : bool) (fs' : gmap string string) :
  TestVerification.main w fs = (Returned b, fs') ->
  let st := TestVerification.run_modules w core_modules in
  open_w w "missing_functions.json" = None
  /\ open_w w "missing_classes.json" = None
  /\ b = Qle_bool 90 (coverage_percentage (TestVerification.summary st))
  /\ fs' = <["missing_classes.json" := Json.dumps (missing_classes st)]>
             (<["missing_functions.json" := Json.dumps (missing_functions st)]> fs).
Proof.
  rewrite main_cases. cbv zeta.
  destruct (open_w w "missing_functions.json"); [discriminate |].
  destruct (open_w w "missing_classes.json"); [discriminate |].
  intros H. injection H as <- <-. auto.
Qed.

Lemma detailed_main_percentage :
  let '(total_functions, implemented_functions, total_classes, implemented_classes) :=
    DetailedVerification.totals
      (fold_left (DetailedVerification.module_step w) core_modules []) in
  DetailedVerification.main w
  = Qle_bool 90 (Reference.percentage
                   (implemented_functions + implemented_classes)
                   (total_functions + total_classes)).
Proof.
  unfold DetailedVerification.main, DetailedVerification.totals.
  set (values := dict_values _).
  rewrite <- pass_as_percentage.
  - destruct (Qle_bool _ _); reflexivity.
  - pose proof (sum_count_nonneg function_results values).
    pose proof (sum_count_nonneg class_results values). lia.
  - pose proof (sum_len_nonneg function_results values).
    pose proof (sum_len_nonneg class_results values). lia.
Qed.

End Boundary.

(** C4 (amended). When [main] of [test_verification.py] returns, the value
    returned is [coverage percentage >= 90], with 90 a constant of the
    code and no threshold input; [main] of [detailed_verification.py]
    returns [implemented >= 0.9 * total], which is the same comparison with
    90 on the percentage of its own counts. *)
Theorem C4_pass_is_percentage_against_90 (w : World) (fs : gmap string string) :
  (open_w w "missing_functions.json" = None ->
   open_w w "missing_classes.json" = None ->
   fst (TestVerification.main w fs)
   = Returned (Qle_bool 90
                 (coverage_percentage
                    (TestVerification.summary
                       (TestVerification.run_modules w core_modules)))))
  /\ (forall b fs',
        TestVerification.main w fs = (Returned b, fs') ->
        b = Qle_bool 90
              (coverage_percentage
                 (TestVerification.summary
                    (TestVerification.run_modules w core_modules))))
  /\ (let '(total_functions, implemented_functions, total_classes, implemented_classes) :=
        DetailedVerification.totals
          (fold_left (DetailedVerification.module_step w) core_modules []) in
      DetailedVerification.main w
      = Qle_bool 90 (Reference.percentage
                       (implemented_functions + implemented_classes)
                       (total_functions + total_classes))).
Proof.
  split; [| split].
  - intros H1 H2. pose proof (main_cases w fs) as H. cbv zeta in H.
    rewrite H, H1, H2. reflexivity.
  - intros b fs' H. apply main_returned in H. tauto.
  - apply detailed_main_percentage.
Qed.

Lemma C4_pass_witness :
  fst (TestVerification.main Sample.writable Sample.stale)
  = Returned (Qle_bool 90
                (coverage_percentage
                   (TestVerification.summary
                      (TestVerification.run_modules Sample.writable core_modules)))).
Proof.
  exact (proj1 (C4_pass_is_percentage_against_90 Sample.writable Sample.stale)
           eq_refl eq_refl).
Defined.

(** C4, as stated, fails: no threshold reaches [main]. On the sample run
    the coverage is 50 percent, so a threshold of 50 would give a pass, and
    [main] returns [False]. *)
Lemma C4_threshold_counterexample :
  ~ (forall threshold : Q,
       fst (TestVerification.main Sample.writable Sample.stale)
       = Returned (Qle_bool threshold
                     (coverage_percentage
                        (TestVerification.summary
                           (TestVerification.run_modules Sample.writable
                              core_modules))))).
Proof. intros H. specialize (H 50%Q). vm_compute in H. discriminate H. Qed.

(** C5 (amended). Neither script reads an exit policy. The [__main__]
    block of [test_verification.py] exits with 0 when [main] returns [True]
    and with 1 when it returns [False], as the gating policy does; the
    [__main__] block of [detailed_verification.py] exits with 0 whatever
    [main] does, as the advisory policy does, and the 0 is forced in that
    block, not in [main], which still returns the pass value. *)
Theorem C5_exit_status_is_fixed_per_script (w : World) (fs : gmap string string) :
  (forall b fs',
     TestVerification.main w fs = (Returned b, fs') ->
     TestVerification.dunder_main w fs = (Exit (exit_code Gating b), fs'))
  /\ (forall r pass,
        snd (DetailedVerification.dunder_main_on r) = Exit (exit_code Advisory pass))
  /\ snd (DetailedVerification.dunder_main w)
     = Exit (exit_code Advisory (DetailedVerification.main w))
  /\ (forall b,
        fst (DetailedVerification.dunder_main_on (Returned b))
        = if b
          then ["Functionality verification completed successfully."]
          else ["Functionality verification found missing items, but exiting successfully."]).
Proof.
  split; [| split; [| split]].
  - intros b fs' H. unfold TestVerification.dunder_main. rewrite H.
    destruct b; reflexivity.
  - intros r pass. reflexivity.
  - reflexivity.
  - intros [|]; reflexivity.
Qed.

Lemma C5_exit_status_witness :
  TestVerification.dunder_main Sample.writable Sample.stale
  = (Exit 1, snd (TestVerification.main Sample.writable Sample.stale)).
Proof.
  exact (proj1 (C5_exit_status_is_fixed_per_script Sample.writable Sample.stale)
           false _ eq_refl).
Defined.

(** C5, as stated, fails: no flag selects the behaviour. On the sample run,
    which does not pass, [test_verification.py] exits with 1 where the
    advisory policy asks for 0, and [detailed_verification.py] exits with 0
    where the gating policy asks for 1. *)
Lemma C5_policy_flag_counterexample :
  ~ (forall policy : Policy,
       fst (TestVerification.dunder_main Sample.writable Sample.stale)
       = Exit (exit_code policy false))
  /\ ~ (forall policy : Policy,
          snd (DetailedVerification.dunder_main Sample.writable)
          = Exit (exit_code policy (DetailedVerification.main Sample.writable))).
Proof.
  split; intros H.
  - specialize (H Advisory). vm_compute in H. discriminate H.
  - specialize (H Gating). vm_compute in H. discriminate H.
Qed.






(** * Further properties of the scripts *)

(** ** White space and [strip] *)

Section Strip.

Lemma lstrip_all_space (pad s : string) :
  Py.all_space pad = true -> Py.lstrip (pad +:+ s) = Py.lstrip s.
Proof.
  induction pad as [|c pad IH]; simpl; intros H; [reflexivity |].
  apply andb_true_iff in H as [Hc Hpad]. rewrite Hc. apply IH, Hpad.
Qed.

Lemma rstrip_all_space_nil (pad : string) :
  Py.all_space pad = true -> Py.rstrip pad = "".
Proof.
  induction pad as [|c pad IH]; simpl; intros H; [reflexivity |].
  apply andb_true_iff in H as [Hc Hpad]. now rewrite (IH Hpad), Hc.
Qed.

Lemma rstrip_all_space (s pad : string) :
  Py.all_space pad = true -> Py.rstrip (s +:+ pad) = Py.rstrip s.
Proof.
  intros H. induction s as [|c s IH]; simpl.
  - apply rstrip_all_space_nil, H.
  - now rewrite IH.
Qed.

Lemma lstrip_append (s pad : string) :
  Py.all_space pad = true ->
  Py.lstrip (s +:+ pad)
  = if Py.all_space s then "" else Py.lstrip s +:+ pad.
Proof.
  intros H. induction s as [|c s IH]; simpl.
  - clear -H. induction pad as [|c pad IH]; simpl in *; [reflexivity |].
    apply andb_true_iff in H as [Hc Hpad]. rewrite Hc. apply IH, Hpad.
  - destruct (Py.isspace c); simpl; [exact IH | reflexivity].
Qed.

Lemma lstrip_all_space_nil (s : string) :
  Py.all_space s = true -> Py.lstrip s = "".
Proof.
  induction s as [|c s IH]; simpl; intros H; [reflexivity |].
  apply andb_true_iff in H as [Hc Hs]. rewrite Hc. apply IH, Hs.
Qed.

(** White space around a line does not change what [strip] returns. *)
Lemma strip_padding (pad1 s pad2 : string) :
  Py.all_space pad1 = true -> Py.all_space pad2 = true ->
  Py.strip (pad1 +:+ s +:+ pad2) = Py.strip s.
Proof.
  intros H1 H2. unfold Py.strip.
  rewrite (lstrip_all_space _ _ H1), (lstrip_append _ _ H2).
  destruct (Py.all_space s) eqn:Hs.
  - now rewrite (lstrip_all_space_nil _ Hs).
  - apply rstrip_all_space, H2.
Qed.

End Strip.

(** X1. Extraction does not look at indentation: white space before and
    after a line changes neither what the line adds nor the symbols of a
    whole list of lines. A declaration nested in a class or a function
    counts as a top-level one. *)
Theorem X1_extraction_ignores_indentation (pad1 pad2 : string) :
  Py.all_space pad1 = true -> Py.all_space pad2 = true ->
  (forall acc raw, scan_line acc (pad1 +:+ raw +:+ pad2) = scan_line acc raw)
  /\ (forall k lines,
        names_of k (map (fun raw => pad1 +:+ raw +:+ pad2) lines)
        = names_of k lines).
Proof.
  intros H1 H2. split.
  - intros [fs cs] raw. rewrite !scan_line_classify.
    now rewrite (strip_padding _ _ _ H1 H2).
  - intros k lines. induction lines as [|raw lines IH]; [reflexivity |].
    cbn [map]. rewrite !names_of_cons, IH.
    now rewrite (strip_padding _ _ _ H1 H2).
Qed.

Lemma X1_indentation_witness :
  scan_line ([], []) ("        " +:+ "def run(self):" +:+ "  ")
  = scan_line ([], []) "def run(self):".
Proof.
  exact (proj1 (X1_extraction_ignores_indentation "        " "  " eq_refl eq_refl)
           ([], []) "def run(self):").
Defined.

(** ** The characters of an extracted name *)

Section NameCharacters.

Lemma has_char_append (c : ascii) (a b : string) :
  Py.has_char c (a +:+ b) = Py.has_char c a || Py.has_char c b.
Proof.
  induction a as [|d a IH]; simpl; [reflexivity |].
  rewrite IH. apply orb_assoc.
Qed.

Lemma split_nonempty (sep : ascii) (s : string) : Py.split sep s <> [].
Proof.
  induction s as [|c s IH]; simpl; [discriminate |].
  destruct (Ascii.eqb c sep); [discriminate |].
  destruct (Py.split sep s); [contradiction | discriminate].
Qed.

(** The first piece of a split does not hold the separator. *)
Lemma item0_split_no_sep (sep : ascii) (s : string) :
  Py.has_char sep (Py.item0 (Py.split sep s)) = false.
Proof.
  induction s as [|c s IH]; simpl; [reflexivity |].
  destruct (Ascii.eqb c sep) eqn:Hc; [reflexivity |].
  pose proof (split_nonempty sep s) as Hne.
  destruct (Py.split sep s) as [|h t]; [contradiction |].
  simpl in *. now rewrite Hc, IH.
Qed.

Lemma item0_split_keeps_absent (d sep : ascii) (s : string) :
  Py.has_char d s = false -> Py.has_char d (Py.item0 (Py.split sep s)) = false.
Proof.
  induction s as [|c s IH]; simpl; intros H; [reflexivity |].
  apply orb_false_iff in H as [Hc Hs].
  destruct (Ascii.eqb c sep); [reflexivity |].
  pose proof (split_nonempty sep s) as Hne.
  destruct (Py.split sep s) as [|h t]; [contradiction |].
  simpl in *. now rewrite Hc, (IH Hs).
Qed.

(** Deleting occurrences brings in no character. *)
Lemma replace_from_keeps_absent (d : ascii) (old : string) (s : string) :
  Py.has_char d s = false ->
  forall skip, Py.has_char d (Py.replace_from old "" skip s) = false.
Proof.
  induction s as [|c s IH]; simpl; intros H skip; [reflexivity |].
  apply orb_false_iff in H as [Hc Hs].
  destruct skip as [|k]; [| apply IH, Hs].
  destruct (Py.startswith old (String c s)).
  - simpl. apply IH, Hs.
  - simpl. now rewrite Hc, (IH Hs).
Qed.

Lemma replace_keeps_absent (d : ascii) (old s : string) :
  old <> "" -> Py.has_char d s = false ->
  Py.has_char d (Py.replace old "" s) = false.
Proof.
  intros Hold H. destruct old; [contradiction |].
  apply replace_from_keeps_absent, H.
Qed.

Lemma lstrip_keeps_absent (d : ascii) (s : string) :
  Py.has_char d s = false -> Py.has_char d (Py.lstrip s) = false.
Proof.
  induction s as [|c s IH]; simpl; intros H; [reflexivity |].
  destruct (Py.isspace c); [| exact H].
  apply orb_false_iff in H as [_ Hs]. apply IH, Hs.
Qed.

Lemma rstrip_keeps_absent (d : ascii) (s : string) :
  Py.has_char d s = false -> Py.has_char d (Py.rstrip s) = false.
Proof.
  induction s as [|c s IH]; simpl; intros H; [reflexivity |].
  apply orb_false_iff in H as [Hc Hs]. specialize (IH Hs).
  destruct (Py.rstrip s).
  - destruct (Py.isspace c); simpl; [reflexivity | now rewrite Hc].
  - simpl in *. now rewrite Hc, IH.
Qed.

Lemma strip_keeps_absent (d : ascii) (s : string) :
  Py.has_char d s = false -> Py.has_char d (Py.strip s) = false.
Proof. intros H. apply rstrip_keeps_absent, lstrip_keeps_absent, H. Qed.

(** No piece of a split holds the separator. *)
Lemma split_pieces_no_sep (sep : ascii) (s piece : string) :
  In piece (Py.split sep s) -> Py.has_char sep piece = false.
Proof.
  revert piece. induction s as [|c s IH]; simpl; intros piece H.
  - destruct H as [<-|[]]. reflexivity.
  - destruct (Ascii.eqb c sep) eqn:Hc.
    + destruct H as [<-|H]; [reflexivity | apply IH, H].
    + pose proof (split_nonempty sep s) as Hne.
      destruct (Py.split sep s) as [|h t]; [contradiction |].
      destruct H as [<-|H].
      * simpl. rewrite Hc. apply IH. left; reflexivity.
      * apply IH. right; exact H.
Qed.

Lemma classify_line_name (line : string) (k : Kind) (n : string) :
  classify_line line = Some (k, n) ->
  Py.has_char "(" n = false
  /\ (k = Class -> Py.has_char ":" n = false)
  /\ (forall d, Py.has_char d line = false -> Py.has_char d n = false).
Proof.
  unfold classify_line.
  destruct (Py.startswith "def " line && negb (Py.startswith "def _" line)).
  - intros H.
    assert (Hn : n = Py.replace "def " "" (Py.item0 (Py.split "(" line)))
      by congruence.
    assert (Hk : k = Function) by congruence.
    rewrite Hn, Hk. split; [| split].
    + apply replace_keeps_absent; [discriminate |]. apply item0_split_no_sep.
    + discriminate.
    + intros d Hd. apply replace_keeps_absent; [discriminate |].
      apply item0_split_keeps_absent, Hd.
  - destruct (Py.startswith "class " line); [| discriminate].
    intros H.
    assert (Hn : n = Py.replace "class " ""
                       (Py.item0 (Py.split ":" (Py.item0 (Py.split "(" line)))))
      by congruence.
    rewrite Hn. split; [| split].
    + apply replace_keeps_absent; [discriminate |].
      apply item0_split_keeps_absent, item0_split_no_sep.
    + intros _. apply replace_keeps_absent; [discriminate |].
      apply item0_split_no_sep.
    + intros d Hd. apply replace_keeps_absent; [discriminate |].
      apply item0_split_keeps_absent, item0_split_keeps_absent, Hd.
Qed.

Lemma names_of_In (k : Kind) (lines : list string) (n : string) :
  In n (names_of k lines) ->
  exists raw, In raw lines /\ classify_line (Py.strip raw) = Some (k, n).
Proof.
  unfold names_of. rewrite in_flat_map. intros (raw & Hraw & Hn).
  exists raw. split; [exact Hraw |].
  destruct (classify_line (Py.strip raw)) as [[[|] m]|]; destruct k;
    simpl in Hn; try contradiction; destruct Hn as [<-|[]]; reflexivity.
Qed.

End NameCharacters.

(** X2. A line gives at most one symbol: the functions and the classes
    returned for a file are together no more than its lines, and none when
    the file cannot be read. *)
Theorem X2_at_most_one_symbol_per_line (w : World) (py_file : string) :
  let analysis := analyze_python_module w py_file in
  length (functions analysis) + length (classes analysis)
  <= match read_text w py_file with
     | inl content => length (Py.split "010" content)
     | inr _ => 0
     end.
Proof.
  cbv zeta. destruct (read_text w py_file) as [content|e] eqn:Hread.
  - rewrite (analyze_ok _ _ _ Hread). cbn [functions classes].
    induction (Py.split "010" content) as [|raw lines IH]; [simpl; lia |].
    rewrite !names_of_cons, !length_app.
    destruct (classify_line (Py.strip raw)) as [[[|] n]|]; simpl in *; lia.
  - rewrite (analyze_error _ _ _ Hread). simpl. lia.
Qed.

(** X3. No extracted name holds an opening parenthesis or a line break,
    and no class name holds a colon. *)
Theorem X3_names_hold_no_delimiter (w : World) (py_file n : string) :
  let analysis := analyze_python_module w py_file in
  (In n (functions analysis) ->
   Py.has_char "(" n = false /\ Py.has_char "010" n = false)
  /\ (In n (classes analysis) ->
      Py.has_char "(" n = false /\ Py.has_char ":" n = false
      /\ Py.has_char "010" n = false).
Proof.
  cbv zeta. destruct (read_text w py_file) as [content|e] eqn:Hread.
  - rewrite (analyze_ok _ _ _ Hread). cbn [functions classes].
    split; intros Hn; apply names_of_In in Hn as (raw & Hraw & Hc);
      apply classify_line_name in Hc as (Hp & Hcolon & Hkeep);
      pose proof (split_pieces_no_sep _ _ _ Hraw) as Hnl;
      apply strip_keeps_absent in Hnl; auto.
  - rewrite (analyze_error _ _ _ Hread). cbn [functions classes].
    split; intros [].
Qed.

Lemma X3_names_witness :
  Py.has_char "(" "foo" = false /\ Py.has_char "010" "foo" = false.
Proof.
  apply (proj1 (X3_names_hold_no_delimiter Sample.writable "foo.py" "foo")).
  vm_compute. tauto.
Defined.

(** ** Lines and names *)

Section Lines.

Lemma split_append (sep : ascii) (a b : string) :
  Py.split sep (a +:+ String sep b) = Py.split sep a ++ Py.split sep b.
Proof.
  induction a as [|c a IH]; simpl.
  - now rewrite Ascii.eqb_refl.
  - rewrite IH. destruct (Ascii.eqb c sep); [reflexivity |].
    pose proof (split_nonempty sep a) as Hne.
    destruct (Py.split sep a) as [|h t]; [contradiction | reflexivity].
Qed.

Lemma item0_split_append (sep : ascii) (p q : string) :
  Py.has_char sep p = false ->
  Py.item0 (Py.split sep (p +:+ q)) = p +:+ Py.item0 (Py.split sep q).
Proof.
  induction p as [|c p IH]; simpl; intros H; [reflexivity |].
  apply orb_false_iff in H as [Hc Hp]. rewrite Hc.
  specialize (IH Hp).
  pose proof (split_nonempty sep (p +:+ q)) as Hne.
  destruct (Py.split sep (p +:+ q)) as [|h t]; [contradiction |].
  simpl in *. now rewrite IH.
Qed.

Lemma item0_split_cons (sep c : ascii) (q : string) :
  Py.item0 (Py.split sep (String c q))
  = if Ascii.eqb c sep then "" else String c (Py.item0 (Py.split sep q)).
Proof.
  simpl. destruct (Ascii.eqb c sep); [reflexivity |].
  pose proof (split_nonempty sep q) as Hne.
  destruct (Py.split sep q); [contradiction | reflexivity].
Qed.

Lemma item0_split_prefix (sep : ascii) (p rest : string) :
  Py.has_char sep p = false ->
  Py.item0 (Py.split sep (p +:+ String sep rest)) = p.
Proof.
  intros H. rewrite (item0_split_append _ _ _ H). simpl.
  rewrite Ascii.eqb_refl. simpl. apply append_nil_r.
Qed.

Lemma item0_split_absent (sep : ascii) (p : string) :
  Py.has_char sep p = false -> Py.item0 (Py.split sep p) = p.
Proof.
  intros H. rewrite <- (append_nil_r p) at 1.
  rewrite (item0_split_append _ _ _ H). simpl. apply append_nil_r.
Qed.

(** Without an occurrence of [old], [replace] returns its argument. *)
Lemma replace_from_no_occurrence (old new s : string) :
  old <> "" -> Py.contains old s = false -> Py.replace_from old new 0 s = s.
Proof.
  intros Hold. induction s as [|c s IH]; intros H; [reflexivity |].
  cbn [Py.contains] in H. apply orb_false_iff in H as [Hstart Hrest].
  cbn [Py.replace_from]. rewrite Hstart. now rewrite (IH Hrest).
Qed.

Lemma startswith_head (c : ascii) (r q : string) :
  r <> "" -> Py.startswith (String c "") (r +:+ q) = Py.startswith (String c "") r.
Proof. destruct r; [contradiction | reflexivity]. Qed.

End Lines.

(** X4. Extraction goes line by line: the symbols of two texts joined by a
    line break are the symbols of the first followed by those of the
    second, for the functions and for the classes. *)
Theorem X4_extraction_is_compositional (a b : string) :
  scan_content (a +:+ String "010" b)
  = (fst (scan_content a) ++ fst (scan_content b),
     snd (scan_content a) ++ snd (scan_content b)).
Proof.
  rewrite !scan_content_names, split_append, !names_of_app. reflexivity.
Qed.

(** X5. The usual declaration gives the name as written: when the text [r]
    between [def ] and the first opening parenthesis holds no parenthesis,
    no further [def ] and does not start with an underscore, the line adds
    the function [r]; when the text [r] between [class ] and the first
    parenthesis or colon holds neither and no further [class ], the line
    adds the class [r]. *)
Theorem X5_name_is_text_after_marker (r rest raw : string)
    (fs cs : list string) :
  Py.has_char "(" r = false ->
  (Py.contains "def " r = false ->
   Py.startswith "_" r = false ->
   Py.strip raw = "def " +:+ r +:+ String "(" rest ->
   scan_line (fs, cs) raw = (fs ++ [r], cs))
  /\ (Py.contains "class " r = false ->
      Py.has_char ":" r = false ->
      Py.strip raw = "class " +:+ r +:+ String "(" rest
      \/ Py.strip raw = "class " +:+ r +:+ String ":" rest ->
      scan_line (fs, cs) raw = (fs, cs ++ [r])).
Proof.
  intros Hparen. split.
  - intros Hdef Hunder Hraw.
    rewrite scan_line_classify, Hraw. unfold classify_line.
    rewrite startswith_append.
    assert (Hpriv : Py.startswith "def _" ("def " +:+ r +:+ String "(" rest) = false).
    { change (Py.startswith "_" (r +:+ String "(" rest) = false).
      destruct r; [reflexivity | exact Hunder]. }
    rewrite Hpriv. cbn [negb andb].
    rewrite <- append_assoc, item0_split_prefix.
    + change (Py.replace "def " "" ("def " +:+ r))
        with (Py.replace_from "def " "" 0 r).
      rewrite replace_from_no_occurrence by (discriminate || assumption).
      reflexivity.
    + rewrite has_char_append, Hparen. reflexivity.
  - intros Hclass Hcolon Hraw.
    assert (Hname : Py.replace "class " "" ("class " +:+ r) = r).
    { change (Py.replace "class " "" ("class " +:+ r))
        with (Py.replace_from "class " "" 0 r).
      apply replace_from_no_occurrence; [discriminate | assumption]. }
    assert (Hp : Py.has_char "(" ("class " +:+ r) = false)
      by (rewrite has_char_append, Hparen; reflexivity).
    assert (Hc : Py.has_char ":" ("class " +:+ r) = false)
      by (rewrite has_char_append, Hcolon; reflexivity).
    rewrite scan_line_classify.
    destruct Hraw as [Hraw|Hraw]; rewrite Hraw; unfold classify_line.
    + change (Py.startswith "def " ("class " +:+ r +:+ String "(" rest)) with false.
      cbn [andb]. rewrite startswith_append.
      rewrite <- append_assoc, (item0_split_prefix _ _ _ Hp).
      rewrite (item0_split_absent _ _ Hc), Hname. reflexivity.
    + change (Py.startswith "def " ("class " +:+ r +:+ String ":" rest)) with false.
      cbn [andb]. rewrite startswith_append.
      rewrite <- append_assoc, (item0_split_append _ _ _ Hp).
      rewrite item0_split_cons. change (Ascii.eqb ":" "(") with false.
      cbv iota. rewrite (item0_split_prefix _ _ _ Hc), Hname. reflexivity.
Qed.

Lemma X5_name_witness :
  scan_line ([], []) "    def fit(self, X, y=None):" = (["fit"], [])
  /\ scan_line ([], []) "class Ridge(Node):" = ([], ["Ridge"]).
Proof.
  split.
  - exact (proj1 (X5_name_is_text_after_marker "fit" "self, X, y=None):"
                    "    def fit(self, X, y=None):" [] [] eq_refl)
             eq_refl eq_refl eq_refl).
  - exact (proj2 (X5_name_is_text_after_marker "Ridge" "Node):"
                    "class Ridge(Node):" [] [] eq_refl)
             eq_refl eq_refl (or_introl eq_refl)).
Defined.

(** ** More on the equivalence search *)

Section SearchFacts.

Variable w : World.

Lemma lower_char_idempotent (c : ascii) :
  Py.lower_char (Py.lower_char c) = Py.lower_char c.
Proof. destruct c as [[] [] [] [] [] [] [] []]; reflexivity. Qed.

Lemma lower_idempotent (s : string) : Py.lower (Py.lower s) = Py.lower s.
Proof.
  induction s as [|c s IH]; simpl; [reflexivity |].
  now rewrite lower_char_idempotent, IH.
Qed.

Lemma test_search_files_lower (n1 n2 root : string) (files : list string) :
  Py.lower n1 = Py.lower n2 ->
  TestVerification.search_files w n1 root files
  = TestVerification.search_files w n2 root files.
Proof.
  intros H. induction files as [|file rest IH]; simpl; [reflexivity |].
  now rewrite H, IH.
Qed.

Lemma test_search_roots_lower (n1 n2 : string) (roots : list string) :
  Py.lower n1 = Py.lower n2 ->
  TestVerification.search_roots w n1 roots
  = TestVerification.search_roots w n2 roots.
Proof.
  intros H. induction roots as [|root rest IH]; simpl; [reflexivity |].
  now rewrite !(test_search_files_lower n1 n2 _ _ H), IH.
Qed.

Lemma detailed_search_files_lower (n1 n2 root : string) (files : list string) :
  Py.lower n1 = Py.lower n2 ->
  DetailedVerification.search_files w n1 root files
  = DetailedVerification.search_files w n2 root files.
Proof.
  intros H. induction files as [|file rest IH]; simpl; [reflexivity |].
  now rewrite H, IH.
Qed.

Lemma found_lower (n1 n2 : string) :
  Py.lower n1 = Py.lower n2 -> Reference.found w n1 = Reference.found w n2.
Proof.
  intros H. unfold Reference.found, TestVerification.check_cpp_equivalent.
  now rewrite (test_search_roots_lower n1 n2 _ H).
Qed.

Lemma occurs_in_trans (a b c : string) :
  occurs_in a b -> occurs_in b c -> occurs_in a c.
Proof.
  intros (u & v & ->) (x & y & ->).
  exists (x +:+ u), (v +:+ y). now rewrite !append_assoc.
Qed.

Lemma drop_append (a b : string) : Py.drop (String.length a) (a +:+ b) = b.
Proof. induction a as [|c a IH]; simpl; [reflexivity | exact IH]. Qed.

(** A path joined under a root is read back relative to it. *)
Lemma relative_to_path_join (root rel : string) :
  PathLib.relative_to (path_join root rel) root = Some rel.
Proof.
  unfold PathLib.relative_to, path_join.
  destruct (String.eqb root "."); [reflexivity |].
  rewrite <- append_assoc, startswith_append.
  replace (String.length root + 1) with (String.length (root +:+ "/"))
    by (rewrite string_length_append; reflexivity).
  now rewrite drop_append.
Qed.

Lemma detailed_search_files_first (item_name root : string)
    (pre post : list string) (file rel : string) :
  (forall g, In g pre -> Reference.file_matches w item_name g = false) ->
  Reference.file_matches w item_name file = true ->
  PathLib.relative_to file root = Some rel ->
  DetailedVerification.search_files w item_name root (pre ++ file :: post)
  = Some (true, "Found in " +:+ rel).
Proof.
  intros Hpre Hfile Hrel. induction pre as [|g pre IH]; simpl.
  - unfold Reference.file_matches in Hfile.
    destruct (read_text w file); [| discriminate].
    now rewrite Hfile, Hrel.
  - pose proof (Hpre g (or_introl eq_refl)) as Hg.
    unfold Reference.file_matches in Hg.
    assert (IH' := IH (fun h Hh => Hpre h (or_intror Hh))).
    destruct (read_text w g); [| exact IH'].
    rewrite Hg. exact IH'.
Qed.

Lemma detailed_search_files_no_match (item_name root : string)
    (files : list string) :
  (forall g, In g files -> Reference.file_matches w item_name g = false) ->
  DetailedVerification.search_files w item_name root files = None.
Proof.
  intros H. induction files as [|g files IH]; simpl; [reflexivity |].
  pose proof (H g (or_introl eq_refl)) as Hg.
  unfold Reference.file_matches in Hg.
  assert (IH' := IH (fun h Hh => H h (or_intror Hh))).
  destruct (read_text w g); [| exact IH'].
  rewrite Hg. exact IH'.
Qed.

End SearchFacts.

(** X6. The search does not depend on the case of the name: two names
    with the same lower-cased form get the same result, location included,
    from the search of either script, and a name gets the result of its
    lower-cased form. *)
Theorem X6_search_ignores_case_of_name (w : World) (n1 n2 headers src : string) :
  Py.lower n1 = Py.lower n2 ->
  TestVerification.check_cpp_equivalent w n1 headers src
  = TestVerification.check_cpp_equivalent w n2 headers src
  /\ DetailedVerification.check_cpp_equivalent w n1 headers src
     = DetailedVerification.check_cpp_equivalent w n2 headers src
  /\ TestVerification.check_cpp_equivalent w (Py.lower n1) headers src
     = TestVerification.check_cpp_equivalent w n2 headers src.
Proof.
  intros H. split; [| split].
  - unfold TestVerification.check_cpp_equivalent.
    now rewrite (test_search_roots_lower w n1 n2 _ H).
  - unfold DetailedVerification.check_cpp_equivalent.
    now rewrite !(detailed_search_files_lower w n1 n2 _ _ H).
  - unfold TestVerification.check_cpp_equivalent.
    rewrite (test_search_roots_lower w (Py.lower n1) n2); [reflexivity |].
    now rewrite lower_idempotent.
Qed.

Lemma X6_case_witness :
  TestVerification.check_cpp_equivalent Sample.writable "GAMMA" "include" "src"
  = TestVerification.check_cpp_equivalent Sample.writable "gamma" "include" "src".
Proof.
  exact (proj1 (X6_search_ignores_case_of_name Sample.writable
                  "GAMMA" "gamma" "include" "src" eq_refl)).
Defined.

(** X7. The search is monotone in the name: when a name is found, every
    name whose lower-cased form occurs in the lower-cased form of that name
    is found too. *)
Theorem X7_found_is_monotone_in_the_name (w : World) (a b : string) :
  occurs_in (Py.lower a) (Py.lower b) ->
  Reference.found w b = true ->
  Reference.found w a = true.
Proof.
  intros Hab Hb. apply found_iff in Hb as (file & Hin & Hm).
  apply found_iff. exists file. split; [exact Hin |].
  apply file_matches_iff in Hm as (text & Hr & Ho).
  apply file_matches_iff. exists text. split; [exact Hr |].
  exact (occurs_in_trans _ _ _ Hab Ho).
Qed.

Lemma X7_monotone_witness : Reference.found Sample.writable "LPH" = true.
Proof.
  apply (X7_found_is_monotone_in_the_name Sample.writable "LPH" "alpha").
  - exists "a", "a". reflexivity.
  - reflexivity.
Defined.

(** X8. Without a candidate file that can be read nothing is found, not
    even the empty name: this is so when neither candidate directory
    exists, and when every file visited fails to read. *)
Theorem X8_nothing_readable_nothing_found (w : World) (item_name : string) :
  (path_exists w TestVerification.cpp_headers_dir = false ->
   path_exists w TestVerification.cpp_src_dir = false ->
   TestVerification.check_cpp_equivalent w item_name
     TestVerification.cpp_headers_dir TestVerification.cpp_src_dir
   = (false, "NOT FOUND"))
  /\ ((forall f, In f (Reference.traversal w) -> Reference.readable w f = false) ->
      TestVerification.check_cpp_equivalent w item_name
        TestVerification.cpp_headers_dir TestVerification.cpp_src_dir
      = (false, "NOT FOUND")).
Proof.
  split.
  - intros Hh Hs. unfold TestVerification.check_cpp_equivalent.
    cbn [TestVerification.search_roots]. now rewrite Hh, Hs.
  - intros Hall. rewrite check_cpp_equivalent_find.
    rewrite (proj2 (find_none_iff (Reference.file_matches w item_name) _));
      [reflexivity |].
    intros f Hf. specialize (Hall f Hf).
    unfold Reference.readable in Hall. unfold Reference.file_matches.
    destruct (read_text w f); [discriminate | reflexivity].
Qed.

Lemma X8_nothing_found_witness :
  TestVerification.check_cpp_equivalent Sample.empty ""
    TestVerification.cpp_headers_dir TestVerification.cpp_src_dir
  = (false, "NOT FOUND").
Proof.
  exact (proj1 (X8_nothing_readable_nothing_found Sample.empty "") eq_refl eq_refl).
Defined.

(** X9. The search of [detailed_verification.py] looks at the headers
    first: the first matching header [headers/rel] is reported as
    [Found in rel]; without a matching header the first matching source
    [src/rel] is reported the same way; without any match the result is
    [Not found]. *)
Theorem X9_detailed_search_reports_relative_path (w : World)
    (item_name headers src : string) :
  (forall pre rel post,
     rglob w headers "*.hpp" = pre ++ path_join headers rel :: post ->
     (forall g, In g pre -> Reference.file_matches w item_name g = false) ->
     Reference.file_matches w item_name (path_join headers rel) = true ->
     DetailedVerification.check_cpp_equivalent w item_name headers src
     = (true, "Found in " +:+ rel))
  /\ (forall pre rel post,
        (forall g, In g (rglob w headers "*.hpp") ->
                   Reference.file_matches w item_name g = false) ->
        rglob w src "*.cpp" = pre ++ path_join src rel :: post ->
        (forall g, In g pre -> Reference.file_matches w item_name g = false) ->
        Reference.file_matches w item_name (path_join src rel) = true ->
        DetailedVerification.check_cpp_equivalent w item_name headers src
        = (true, "Found in " +:+ rel))
  /\ ((forall g, In g (rglob w headers "*.hpp" ++ rglob w src "*.cpp") ->
                 Reference.file_matches w item_name g = false) ->
      DetailedVerification.check_cpp_equivalent w item_name headers src
      = (false, "Not found")).
Proof.
  split; [| split].
  - intros pre rel post Hl Hpre Hm.
    unfold DetailedVerification.check_cpp_equivalent. rewrite Hl.
    now rewrite (detailed_search_files_first w item_name headers pre post _ rel
                   Hpre Hm (relative_to_path_join headers rel)).
  - intros pre rel post Hh Hl Hpre Hm.
    unfold DetailedVerification.check_cpp_equivalent.
    rewrite (detailed_search_files_no_match w item_name headers _ Hh), Hl.
    now rewrite (detailed_search_files_first w item_name src pre post _ rel
                   Hpre Hm (relative_to_path_join src rel)).
  - intros Hall. unfold DetailedVerification.check_cpp_equivalent.
    rewrite !detailed_search_files_no_match; [reflexivity | |];
      intros g Hg; apply Hall, in_app_iff; auto.
Qed.

Lemma X9_detailed_search_witness :
  DetailedVerification.check_cpp_equivalent Sample.with_nodes "reservoir"
    DetailedVerification.cpp_headers_dir DetailedVerification.cpp_src_dir
  = (true, "Found in esn/reservoir.hpp").
Proof.
  apply (proj1 (X9_detailed_search_reports_relative_path Sample.with_nodes
                  "reservoir" DetailedVerification.cpp_headers_dir
                  DetailedVerification.cpp_src_dir)
           [] "esn/reservoir.hpp" []).
  - reflexivity.
  - intros g [].
  - reflexivity.
Defined.

(** ** More on the report of [test_verification.py] *)

Section ReportFacts.

Variable w : World.

Lemma found_le_symbols (k : Kind) (modules : list string) :
  (0 <= len (Reference.found_symbols k w modules)
   <= len (Reference.symbols k w modules))%Z.
Proof.
  unfold Reference.found_symbols.
  rewrite (filter_partition_len (Reference.entry_found w)
             (Reference.symbols k w modules)).
  pose proof (len_nonneg (List.filter (Reference.entry_found w)
                            (Reference.symbols k w modules))).
  pose proof (len_nonneg (List.filter (fun e => negb (Reference.entry_found w e))
                            (Reference.symbols k w modules))).
  lia.
Qed.

Lemma percentage_bounds (implemented total : Z) :
  (0 <= implemented <= total)%Z ->
  (0 <= Reference.percentage implemented total
   /\ Reference.percentage implemented total <= 100)%Q.
Proof.
  intros [Hi Ht]. unfold Reference.percentage.
  destruct total as [|p|p]; [| | lia].
  - cbn. split; unfold Qle; simpl; lia.
  - change (0 <? Z.pos p)%Z with true. cbv iota.
    unfold Qle, Qdiv, Qmult, Qinv, inject_Z. cbn [Qnum Qden].
    rewrite ?Pos2Z.inj_mul. split; lia.
Qed.

Lemma pass_iff (implemented total : Z) :
  (0 <= implemented)%Z -> (0 <= total)%Z ->
  Qle_bool 90 (Reference.percentage implemented total) = true
  <-> (9 * total <= 10 * implemented)%Z.
Proof.
  intros Hi Ht. rewrite <- (pass_as_percentage _ _ Hi Ht), Qle_bool_iff.
  unfold Qle, Qmult, inject_Z. cbn [Qnum Qden].
  rewrite ?Pos2Z.inj_mul. lia.
Qed.


Lemma total_missing_spec :
  let sm := TestVerification.summary
              (TestVerification.run_modules w core_modules) in
  total_missing sm
  = (total_functions sm + total_classes sm
     - (implemented_functions sm + implemented_classes sm))%Z.
Proof.
  intros sm. destruct (summary_counts w) as (Htf & Hif & Htc & Hic).
  fold sm in Htf, Hif, Htc, Hic. rewrite Htf, Hif, Htc, Hic.
  assert (Hm : total_missing sm
               = (len (Reference.missing_symbols Function w core_modules)
                  + len (Reference.missing_symbols Class w core_modules))%Z).
  { subst sm. rewrite run_modules_spec. reflexivity. }
  rewrite Hm. unfold Reference.found_symbols, Reference.missing_symbols.
  rewrite (filter_partition_len (Reference.entry_found w)
             (Reference.symbols Function w core_modules)).
  rewrite (filter_partition_len (Reference.entry_found w)
             (Reference.symbols Class w core_modules)).
  lia.
Qed.

End ReportFacts.

(** X10. In the report of a run the number of missing items is the number
    of extracted symbols less the number of implemented ones: the missing
    lists and the counts of [verification_results], kept apart by the
    code, agree. *)
Theorem X10_missing_is_total_less_implemented (w : World) :
  let sm := TestVerification.summary
              (TestVerification.run_modules w core_modules) in
  total_missing sm
  = (total_functions sm + total_classes sm
     - (implemented_functions sm + implemented_classes sm))%Z.
Proof. exact (total_missing_spec w). Qed.

(** X11. In the report of a run the implemented count of each kind lies
    between 0 and the total of the kind, and the coverage percentage lies
    between 0 and 100. *)
Theorem X11_counts_and_percentage_are_bounded (w : World) :
  let sm := TestVerification.summary
              (TestVerification.run_modules w core_modules) in
  (0 <= implemented_functions sm <= total_functions sm)%Z
  /\ (0 <= implemented_classes sm <= total_classes sm)%Z
  /\ (0 <= coverage_percentage sm)%Q
  /\ (coverage_percentage sm <= 100)%Q.
Proof.
  intros sm. destruct (summary_counts w) as (Htf & Hif & Htc & Hic).
  fold sm in Htf, Hif, Htc, Hic.
  pose proof (found_le_symbols w Function core_modules) as Hf.
  pose proof (found_le_symbols w Class core_modules) as Hc.
  rewrite <- Htf, <- Hif in Hf. rewrite <- Htc, <- Hic in Hc.
  split; [exact Hf |]. split; [exact Hc |].
  change (coverage_percentage sm)
    with (Reference.percentage
            (implemented_functions sm + implemented_classes sm)
            (total_functions sm + total_classes sm)).
  apply percentage_bounds. lia.
Qed.

(** X12. When [main] of [test_verification.py] returns, it returns [True]
    exactly when nine times the number of extracted symbols is at most ten
    times the number of implemented ones; so it returns [True] when no
    item is missing, and at most a tenth of the symbols are missing when
    it returns [True]. *)
Theorem X12_pass_in_whole_numbers (w : World) (fs : gmap string string)
    (b : bool) (fs' : gmap string string) :
  TestVerification.main w fs = (Returned b, fs') ->
  let sm := TestVerification.summary
              (TestVerification.run_modules w core_modules) in
  (b = true
   <-> (9 * (total_functions sm + total_classes sm)
        <= 10 * (implemented_functions sm + implemented_classes sm))%Z)
  /\ (total_missing sm = 0%Z -> b = true)
  /\ (b = true ->
      (10 * total_missing sm <= total_functions sm + total_classes sm)%Z).
Proof.
  intros H sm. apply main_returned in H as (_ & _ & Hb & _). fold sm in Hb.
  destruct (summary_counts w) as (Htf & Hif & Htc & Hic).
  fold sm in Htf, Hif, Htc, Hic.
  pose proof (found_le_symbols w Function core_modules) as Hf.
  pose proof (found_le_symbols w Class core_modules) as Hc.
  rewrite <- Htf, <- Hif in Hf. rewrite <- Htc, <- Hic in Hc.
  assert (Hiff : b = true
                 <-> (9 * (total_functions sm + total_classes sm)
                      <= 10 * (implemented_functions sm + implemented_classes sm))%Z).
  { rewrite Hb.
    change (coverage_percentage sm)
      with (Reference.percentage
              (implemented_functions sm + implemented_classes sm)
              (total_functions sm + total_classes sm)).
    apply pass_iff; lia. }
  assert (Hmiss : total_missing sm
                  = (total_functions sm + total_classes sm
                     - (implemented_functions sm + implemented_classes sm))%Z).
  { subst sm. apply (total_missing_spec w). }
  split; [exact Hiff |]. split.
  - intros H0. apply Hiff. lia.
  - intros Ht. apply Hiff in Ht. lia.
Qed.

Lemma X12_pass_witness :
  false = true
  <-> (9 * (total_functions
              (TestVerification.summary
                 (TestVerification.run_modules Sample.writable core_modules))
            + total_classes
                (TestVerification.summary
                   (TestVerification.run_modules Sample.writable core_modules)))
       <= 10 * (implemented_functions
                  (TestVerification.summary
                     (TestVerification.run_modules Sample.writable core_modules))
                + implemented_classes
                    (TestVerification.summary
                       (TestVerification.run_modules Sample.writable core_modules))))%Z.
Proof.
  exact (proj1 (X12_pass_in_whole_numbers Sample.writable Sample.stale false
                  (snd (TestVerification.main Sample.writable Sample.stale))
                  eq_refl)).
Defined.



(** X14. The two artifact files are written one after the other and no
    other file is touched: when the first file does not open, [main]
    raises and leaves every file as it was; when only the second does not
    open, [main] raises after the first file got its new content; in every
    case a file with another name keeps its content. *)
Theorem X14_artifact_writes_are_not_atomic (w : World) (fs : gmap string string) :
  (forall e, open_w w "missing_functions.json" = Some e ->
             TestVerification.main w fs = (Raised e, fs))
  /\ (forall e,
        open_w w "missing_functions.json" = None ->
        open_w w "missing_classes.json" = Some e ->
        TestVerification.main w fs
        = (Raised e,
           <["missing_functions.json" :=
               Json.dumps (missing_functions
                             (TestVerification.run_modules w core_modules))]> fs))
  /\ (forall p : string,
        p <> "missing_functions.json" -> p <> "missing_classes.json" ->
        snd (TestVerification.main w fs) !! p = fs !! p).
Proof.
  pose proof (main_cases w fs) as H. cbv zeta in H.
  split; [| split].
  - intros e He. now rewrite H, He.
  - intros e Hf Hc. now rewrite H, Hf, Hc.
  - intros p Hpf Hpc. rewrite H.
    destruct (open_w w "missing_functions.json"); [reflexivity |].
    destruct (open_w w "missing_classes.json"); cbn [snd].
    + now rewrite lookup_insert_ne.
    + now rewrite !lookup_insert_ne.
Qed.

Lemma X14_artifact_writes_witness :
  TestVerification.main Sample.read_only Sample.stale
  = (Raised Sample.permission_denied, Sample.stale).
Proof.
  exact (proj1 (X14_artifact_writes_are_not_atomic Sample.read_only Sample.stale)
           Sample.permission_denied eq_refl).
Defined.

(** X15. Running again changes nothing: a second run of [main] in the same
    environment, on the files the first run left, ends the same way and
    leaves the same files. *)
Theorem X15_second_run_changes_nothing (w : World) (fs : gmap string string) :
  TestVerification.main w (snd (TestVerification.main w fs))
  = TestVerification.main w fs.
Proof.
  rewrite !main_cases. cbv zeta.
  destruct (open_w w "missing_functions.json"); [reflexivity |].
  destruct (open_w w "missing_classes.json"); cbn [snd].
  - f_equal. apply insert_insert_eq.
  - f_equal. apply map_eq. intros i.
    destruct (decide (i = "missing_classes.json")) as [->|Hc].
    + now rewrite !lookup_insert_eq.
    + rewrite !(lookup_insert_ne _ "missing_classes.json") by congruence.
      destruct (decide (i = "missing_functions.json")) as [->|Hf].
      * now rewrite !lookup_insert_eq.
      * repeat (rewrite lookup_insert_ne by congruence). reflexivity.
Qed.

(** X16. The status of a symbol depends on its name alone, up to case: two
    extracted symbols whose names have the same lower-cased form, of any
    kinds and modules, are both in the missing lists or both out of them. *)
Theorem X16_same_name_same_status (w : World) (k1 k2 : Kind) (e1 e2 : Json.Entry) :
  let st := TestVerification.run_modules w core_modules in
  let missing k :=
    match k with
    | Function => missing_functions st
    | Class => missing_classes st
    end in
  Py.lower (Json.name e1) = Py.lower (Json.name e2) ->
  In e1 (Reference.symbols k1 w core_modules) ->
  In e2 (Reference.symbols k2 w core_modules) ->
  (In e1 (missing k1) <-> In e2 (missing k2)).
Proof.
  intros st missing Hlow H1 H2.
  assert (Hm : forall k, missing k = Reference.missing_symbols k w core_modules).
  { intros k. subst missing st. rewrite run_modules_spec. destruct k; reflexivity. }
  rewrite !Hm. unfold Reference.missing_symbols. rewrite !filter_In.
  unfold Reference.entry_found. rewrite (found_lower w _ _ Hlow). tauto.
Qed.

Lemma X16_same_name_witness :
  In {| Json.name := "zeta"; Json.module := "node.py" |}
     (missing_functions (TestVerification.run_modules Sample.writable core_modules))
  <-> In {| Json.name := "zeta"; Json.module := "ops.py" |}
         (missing_functions (TestVerification.run_modules Sample.writable core_modules)).
Proof.
  apply (X16_same_name_same_status Sample.writable Function Function
           {| Json.name := "zeta"; Json.module := "node.py" |}
           {| Json.name := "zeta"; Json.module := "ops.py" |}).
  - reflexivity.
  - vm_compute. tauto.
  - vm_compute. tauto.
Defined.

(** ** The node types part of [detailed_verification.py] *)

Example name_ex :
  PathLib.name "/workspaces/reservoir-cpp/reservoirpy/nodes/tests/test_e.py"
  = "test_e.py"
  /\ PathLib.name "nodes/__init__.py" = "__init__.py"
  /\ PathLib.name "a.py" = "a.py".
Proof. repeat split. Qed.

Example node_types_ex :
  DetailedVerification.node_types_analysis Sample.with_nodes
  = DetailedVerification.NodeClasses
      "/workspaces/reservoir-cpp/reservoirpy/nodes/a.py" 0 1
      [("Reservoir", true, "Found in esn/reservoir.hpp")]
    :: map (fun n =>
              DetailedVerification.NodeError
                ("/workspaces/reservoir-cpp/reservoirpy/nodes/" +:+ n)
                "[Errno 2] No such file or directory")
           ["b.py"; "c.py"; "d.py"; "tests/test_e.py"; "f.py"; "g.py"; "h.py";
            "i.py"; "j.py"].
Proof. reflexivity. Qed.



(** ** More on the artifacts *)

Section ArtifactText.

Lemma all_printable_append (a b : string) :
  Py.all_printable (a +:+ b) = Py.all_printable a && Py.all_printable b.
Proof.
  induction a as [|c a IH]; simpl; [reflexivity |].
  rewrite IH. apply andb_assoc.
Qed.

Lemma escape_char_printable (c : ascii) :
  Py.all_printable (Json.escape_char c) = true.
Proof. destruct c as [[] [] [] [] [] [] [] []]; reflexivity. Qed.

Lemma escape_printable (s : string) : Py.all_printable (Json.escape s) = true.
Proof.
  induction s as [|c s IH]; [reflexivity |].
  cbn [Json.escape]. now rewrite all_printable_append, escape_char_printable, IH.
Qed.

Lemma dump_string_printable (s : string) :
  Py.all_printable (Json.dump_string s) = true.
Proof.
  unfold Json.dump_string. cbn [Py.all_printable].
  rewrite all_printable_append, escape_printable. reflexivity.
Qed.

Lemma dump_entry_printable (e : Json.Entry) :
  Py.all_printable (Json.dump_entry e) = true.
Proof.
  unfold Json.dump_entry.
  rewrite !all_printable_append, !dump_string_printable. reflexivity.
Qed.

Lemma join_printable (l : list Json.Entry) :
  Py.all_printable (Py.join ", " (map Json.dump_entry l)) = true.
Proof.
  induction l as [|e l IH]; [reflexivity |].
  destruct l as [|e' l].
  - apply dump_entry_printable.
  - rewrite join_cons. rewrite all_printable_append, dump_entry_printable.
    cbn [andb Py.all_printable]. exact IH.
Qed.

Lemma dumps_printable (l : list Json.Entry) :
  Py.all_printable (Json.dumps l) = true.
Proof.
  unfold Json.dumps. rewrite !all_printable_append, join_printable.
  reflexivity.
Qed.

End ArtifactText.

(** X18. Whatever characters the symbol names hold, the text [main] writes
    to an artifact file holds printable ASCII characters only. *)
Theorem X18_artifact_text_is_printable_ascii (w : World)
    (fs : gmap string string) (b : bool) (fs' : gmap string string)
    (p text : string) :
  TestVerification.main w fs = (Returned b, fs') ->
  p = "missing_functions.json" \/ p = "missing_classes.json" ->
  fs' !! p = Some text ->
  Py.all_printable text = true.
Proof.
  intros H Hp Ht. apply main_returned in H as (_ & _ & _ & ->).
  destruct Hp as [-> | ->].
  - rewrite lookup_insert_ne, lookup_insert_eq in Ht by discriminate.
    injection Ht as <-. apply dumps_printable.
  - rewrite lookup_insert_eq in Ht. injection Ht as <-. apply dumps_printable.
Qed.

Lemma X18_artifact_text_witness :
  Py.all_printable
    (Json.dumps
       (missing_functions
          (TestVerification.run_modules Sample.writable core_modules))) = true.
Proof.
  apply (X18_artifact_text_is_printable_ascii Sample.writable Sample.stale false
           (snd (TestVerification.main Sample.writable Sample.stale))
           "missing_functions.json").
  - reflexivity.
  - left; reflexivity.
  - reflexivity.
Defined.

(** X19. The text of an artifact determines the list written: two lists of
    missing items with the same JSON text are the same list. *)
Theorem X19_artifact_text_determines_entries (l1 l2 : list Json.Entry) :
  Json.dumps l1 = Json.dumps l2 -> l1 = l2.
Proof.
  intros H. pose proof (load_dumps l1) as H1. rewrite H, load_dumps in H1.
  now injection H1.
Qed.

Lemma X19_artifact_text_witness :
  missing_classes (TestVerification.run_modules Sample.writable core_modules)
  = missing_classes (TestVerification.run_modules Sample.empty core_modules).
Proof.
  apply X19_artifact_text_determines_entries. reflexivity.
Defined.

(** ** The order of the results *)

Section ResultOrder.

Variable w : World.

Lemma results_keys_filter (modules : list string) :
  map fst (Reference.results w modules)
  = List.filter (fun m => match Reference.module_analysis w m with
                          | Some _ => true
                          | None => false
                          end) modules.
Proof.
  unfold Reference.results.
  induction modules as [|m modules IH]; [reflexivity |].
  cbn [flat_map List.filter]. rewrite map_app, IH.
  destruct (Reference.module_analysis w m); reflexivity.
Qed.

Lemma results_In (modules : list string) (m : string) (r : ModuleResult) :
  In (m, r) (Reference.results w modules) ->
  exists a, Reference.module_analysis w m = Some a
            /\ r = Reference.result_of w a.
Proof.
  unfold Reference.results. rewrite in_flat_map. intros (m' & _ & H).
  destruct (Reference.module_analysis w m') as [a|] eqn:Ha; [| contradiction].
  destruct H as [H|[]]. injection H as <- <-. eauto.
Qed.

Lemma triple_names (items : list string) :
  map (fun t : string * bool * string => fst (fst t))
      (map (Reference.triple w) items) = items.
Proof.
  induction items as [|x items IH]; [reflexivity |].
  cbn [map]. now rewrite IH.
Qed.

Lemma triple_flags (items : list string) (t : string * bool * string) :
  In t (map (Reference.triple w) items) ->
  snd (fst t) = Reference.found w (fst (fst t)).
Proof. rewrite in_map_iff. intros (x & <- & _). reflexivity. Qed.

End ResultOrder.

(** X20. After the loop of [main], [verification_results] has one entry
    for each core module that exists and was read, in the order of
    [core_modules]; the triples of an entry name the functions and the
    classes of the module in the order extracted, each with the flag the
    search gives for its name. *)
Theorem X20_results_keep_module_and_line_order (w : World) :
  let st := TestVerification.run_modules w core_modules in
  map fst (verification_results st)
  = List.filter (fun m => match Reference.module_analysis w m with
                          | Some _ => true
                          | None => false
                          end) core_modules
  /\ (forall m r,
        In (m, r) (verification_results st) ->
        exists a,
          Reference.module_analysis w m = Some a
          /\ map (fun t : string * bool * string => fst (fst t)) (function_results r)
             = functions a
          /\ map (fun t : string * bool * string => fst (fst t)) (class_results r)
             = classes a
          /\ (forall t, In t (function_results r ++ class_results r) ->
                        snd (fst t) = Reference.found w (fst (fst t)))).
Proof.
  intros st. subst st. rewrite run_modules_spec. cbn [verification_results].
  split; [apply results_keys_filter |].
  intros m r H. apply results_In in H as (a & Ha & ->).
  exists a. split; [exact Ha |]. cbn [Reference.result_of function_results class_results].
  split; [apply triple_names |]. split; [apply triple_names |].
  intros t Ht. apply in_app_iff in Ht as [Ht|Ht];
    exact (triple_flags w _ t Ht).
Qed.

Lemma X20_results_order_witness :
  exists a,
    Reference.module_analysis Sample.writable "ops.py" = Some a
    /\ map (fun t : string * bool * string => fst (fst t)) [("zeta", false, "NOT FOUND")]
       = functions a.
Proof.
  destruct (proj2 (X20_results_keep_module_and_line_order Sample.writable)
              "ops.py"
              {| function_results := [("zeta", false, "NOT FOUND")];
                 class_results := [] |})
    as (a & Ha & Hf & _).
  - vm_compute. tauto.
  - exists a. split; [exact Ha | exact Hf].
Defined.
